(** * wxt-module-layers: layer resolution and merge pipeline

    A shallow embedding of [src/filesystem.ts], [src/module.ts] and the
    [shallowMerge]/[toArray] helpers, with the properties the
    specification states about them.

    Conventions
    - strings are [string]; the alias table and the option objects that
      [shallowMerge] handles are plain objects, given by the [gmap] of
      their own properties, what they inherit from [Object.prototype]
      being modelled where the code reads or assigns it; an object
      whose key order matters ([Object.entries] of an entrypoint map)
      is an association list;
    - the file system is an explicit tree ([Fs.node]) in which paths are
      resolved component by component; [process.cwd()] is part of it;
    - a thrown exception is [None];
    - [order] is an integer;
    - state that [setup] mutates (the alias table, the collected
      entrypoints and auto-import paths, the host's entrypoint list and
      import directories) is passed in and returned;
    - [resolveLayers], which [setup] calls, is not among the sources:
      its result is an argument. *)

From Stdlib Require Import ZArith String Ascii List Bool Lia Permutation Sorted.
From stdpp Require Import base option strings gmap pretty.
Import ListNotations.

Set Warnings "-register-all".

Local Open Scope string_scope.
Local Open Scope list_scope.

(* ------------------------------------------------------------------ *)
(** ** JavaScript string primitives *)
(* ------------------------------------------------------------------ *)

Module Str.

(** [s.startsWith(p)] *)
Fixpoint startsWith (p s : string) : bool :=
  match p, s with
  | EmptyString, _ => true
  | String a p', String b s' => Ascii.eqb a b && startsWith p' s'
  | String _ _, EmptyString => false
  end.

(** [s.slice(n)] for [0 <= n] *)
Fixpoint drop (n : nat) (s : string) : string :=
  match n, s with
  | O, _ => s
  | S n', String _ s' => drop n' s'
  | S _, EmptyString => EmptyString
  end.

(** [s.slice(0, n)] for [0 <= n] *)
Fixpoint take (n : nat) (s : string) : string :=
  match n, s with
  | O, _ => EmptyString
  | S n', String a s' => String a (take n' s')
  | S _, EmptyString => EmptyString
  end.

(** [s.endsWith(p)] *)
Definition endsWith (p s : string) : bool :=
  (String.length p <=? String.length s)%nat
  && String.eqb (drop (String.length s - String.length p) s) p.

(** [s.split(c)] for a one-character separator: never the empty list. *)
Fixpoint split (c : ascii) (s : string) : list string :=
  match s with
  | EmptyString => [EmptyString]
  | String a s' =>
      let r := split c s' in
      if Ascii.eqb a c then EmptyString :: r
      else match r with
           | x :: xs => String a x :: xs
           | [] => [String a EmptyString]
           end
  end.

(** [parts.join(sep)] *)
Fixpoint join (sep : string) (parts : list string) : string :=
  match parts with
  | [] => EmptyString
  | [x] => x
  | x :: rest => x +:+ sep +:+ join sep rest
  end.

(** [list.includes(x)] on strings *)
Definition includes (x : string) (l : list string) : bool :=
  existsb (String.eqb x) l.

(** Index of the last occurrence of [c] in [s], if any. *)
Fixpoint lastIndexOf (c : ascii) (s : string) : option nat :=
  match s with
  | EmptyString => None
  | String a s' =>
      match lastIndexOf c s' with
      | Some i => Some (S i)
      | None => if Ascii.eqb a c then Some O else None
      end
  end.

(** [s.replace(pat, '')] with a string pattern: only the first
    occurrence is removed. *)
Fixpoint removeFirst (pat s : string) : string :=
  if startsWith pat s then drop (String.length pat) s
  else match s with
       | EmptyString => EmptyString
       | String a s' => String a (removeFirst pat s')
       end.

(** Expansion of the special patterns of a replacement string
    ([$$], [$&], [$`], [$']) for a regular expression without capture
    groups; every other [$] sequence is literal. *)
Fixpoint expandReplacement (repl before matched after : string) : string :=
  match repl with
  | EmptyString => EmptyString
  | String a r =>
      let literal := String a (expandReplacement r before matched after) in
      if Ascii.eqb a "$" then
        match r with
        | String b r' =>
            let rest := expandReplacement r' before matched after in
            if Ascii.eqb b "$" then String "$" rest
            else if Ascii.eqb b "&" then matched +:+ rest
            else if Ascii.eqb b "`" then before +:+ rest
            else if Ascii.eqb b "'" then after +:+ rest
            else literal
        | EmptyString => literal
        end
      else literal
  end.

(** [s.replace(/pat/g, repl)] for a literal, non-empty pattern [pat]:
    every non-overlapping occurrence, left to right.  [before] is the
    part of the subject already scanned (reversed), [skip] the number
    of characters of the current match still to be consumed. *)
Fixpoint replaceAllFrom (pat repl : string) (before : string) (skip : nat)
    (s : string) : string :=
  match s with
  | EmptyString => EmptyString
  | String a s' =>
      match skip with
      | S k => replaceAllFrom pat repl (before +:+ String a EmptyString) k s'
      | O =>
          if startsWith pat s then
            expandReplacement repl before pat (drop (String.length pat) s)
            +:+ replaceAllFrom pat repl (before +:+ String a EmptyString)
                 (String.length pat - 1) s'
          else
            String a (replaceAllFrom pat repl (before +:+ String a EmptyString) O s')
      end
  end.

Definition replaceAll (pat repl s : string) : string :=
  replaceAllFrom pat repl EmptyString O s.

(** [\w] of JavaScript regular expressions: [A-Za-z0-9_]. *)
Definition isWordChar (a : ascii) : bool :=
  let n := nat_of_ascii a in
  ((65 <=? n) && (n <=? 90) || (97 <=? n) && (n <=? 122)
   || (48 <=? n) && (n <=? 57) || (n =? 95))%nat.

(** [s.replace(/\W+/g, '_')]: every maximal run of non-word characters
    becomes one underscore. *)
Fixpoint squashNonWord (inRun : bool) (s : string) : string :=
  match s with
  | EmptyString => EmptyString
  | String a s' =>
      if isWordChar a then String a (squashNonWord false s')
      else if inRun then squashNonWord true s'
      else String "_" (squashNonWord true s')
  end.

End Str.

(* ------------------------------------------------------------------ *)
(** ** [node:path] (POSIX) *)
(* ------------------------------------------------------------------ *)

Module Path.

Definition isAbsolute (p : string) : bool := Str.startsWith "/" p.

(** One step of [normalizeString]: [stack] holds the segments kept so
    far, last one first. *)
Definition normStep (allowAboveRoot : bool) (stack : list string)
    (seg : string) : list string :=
  if String.eqb seg "" || String.eqb seg "." then stack
  else if String.eqb seg ".." then
    match stack with
    | top :: below =>
        if String.eqb top ".." then
          if allowAboveRoot then seg :: stack else stack
        else below
    | [] => if allowAboveRoot then [seg] else []
    end
  else seg :: stack.

Definition normSegments (allowAboveRoot : bool) (p : string) : list string :=
  rev (fold_left (normStep allowAboveRoot) (Str.split "/" p) []).

Definition normalizeString (p : string) (allowAboveRoot : bool) : string :=
  Str.join "/" (normSegments allowAboveRoot p).

(** [path.normalize] *)
Definition normalize (p : string) : string :=
  if String.eqb p "" then "."
  else
    let abs := isAbsolute p in
    let trailing := Str.endsWith "/" p in
    let body := normalizeString p (negb abs) in
    if String.eqb body "" then
      if abs then "/" else if trailing then "./" else "."
    else
      let body' := if trailing then body +:+ "/" else body in
      if abs then "/" +:+ body' else body'.

(** [path.join(...parts)] *)
Definition join (parts : list string) : string :=
  let joined := Str.join "/" (List.filter (fun s => negb (String.eqb s "")) parts) in
  if String.eqb joined "" then "." else normalize joined.

(** The right-to-left scan of [path.resolve]: returns the
    concatenation and whether an absolute part was met. *)
Fixpoint resolveScan (revParts : list string) (acc : string) : string * bool :=
  match revParts with
  | [] => (acc, false)
  | p :: rest =>
      if String.eqb p "" then resolveScan rest acc
      else
        let acc' := p +:+ "/" +:+ acc in
        if isAbsolute p then (acc', true) else resolveScan rest acc'
  end.

(** [path.resolve(...parts)], with [process.cwd()] as [cwd]. *)
Definition resolve (cwd : string) (parts : list string) : string :=
  let '(acc, abs) := resolveScan (rev parts ++ [cwd]) "" in
  let body := normalizeString acc (negb abs) in
  if abs then "/" +:+ body
  else if String.eqb body "" then "." else body.

(** Last non-empty segment of a path ([path.basename] with one
    argument): trailing separators are ignored. *)
Definition lastSegment (p : string) : string :=
  match List.filter (fun s => negb (String.eqb s "")) (rev (Str.split "/" p)) with
  | seg :: _ => seg
  | [] => ""
  end.

Definition basename (p : string) : string := lastSegment p.

(** [path.extname]: from the last dot of the last segment, unless that
    dot opens the segment or the segment is [".."]. *)
Definition extname (p : string) : string :=
  let b := lastSegment p in
  match Str.lastIndexOf "." b with
  | None => ""
  | Some O => ""
  | Some (S i) => if String.eqb b ".." then "" else Str.drop (S i) b
  end.

(** [path.basename(p, suffix)] *)
Definition basenameExt (p suffix : string) : string :=
  let b := lastSegment p in
  if String.eqb suffix "" || negb (String.length suffix <=? String.length p)%nat then b
  else if String.eqb suffix p then ""
  else if Str.endsWith suffix b && negb (String.eqb suffix b)
  then Str.take (String.length b - String.length suffix) b
  else b.

(** Longest common prefix of two segment lists removed from both. *)
Fixpoint dropCommon (a b : list string) : list string * list string :=
  match a, b with
  | x :: a', y :: b' => if String.eqb x y then dropCommon a' b' else (a, b)
  | _, _ => (a, b)
  end.

(** [path.relative(from, to)] *)
Definition relative (cwd from to : string) : string :=
  if String.eqb from to then ""
  else
    let from' := resolve cwd [from] in
    let to' := resolve cwd [to] in
    if String.eqb from' to' then ""
    else
      let '(up, down) := dropCommon (normSegments false from') (normSegments false to') in
      Str.join "/" (map (fun _ => "..") up ++ down).

End Path.

(* ------------------------------------------------------------------ *)
(** ** [node:fs]: a directory tree *)
(* ------------------------------------------------------------------ *)

Module Fs.

(** A file-system object: a regular file, or a directory with its
    entries in enumeration order. *)
Inductive node : Type :=
| File : node
| Dir : list (string * node) -> node.

Record t : Type := mk {
  root : node;      (* the directory "/" *)
  cwd : string;     (* [process.cwd()] *)
}.

Fixpoint child (name : string) (entries : list (string * node)) : option node :=
  match entries with
  | [] => None
  | (n, c) :: rest => if String.eqb n name then Some c else child name rest
  end.

(** Path resolution as the operating system does it, one component at a
    time from [current], whose ancestors are [ancestors] (nearest
    first): an empty component or ["."] stays, [".."] goes up, a name
    goes down; every component, even an empty one left by a trailing
    separator, needs [current] to be a directory. *)
Fixpoint walk (ancestors : list node) (current : node) (components : list string)
    : option (list node * node) :=
  match components with
  | [] => Some (ancestors, current)
  | c :: rest =>
      match current with
      | File => None
      | Dir entries =>
          if String.eqb c "" || String.eqb c "." then walk ancestors current rest
          else if String.eqb c ".." then
            match ancestors with
            | parent :: above => walk above parent rest
            | [] => walk [] current rest
            end
          else
            match child c entries with
            | Some n => walk (current :: ancestors) n rest
            | None => None
            end
      end
  end.

(** The object a path names: none for the empty path; a relative path
    starts from the working directory. *)
Definition lookup (fs : t) (p : string) : option node :=
  if String.eqb p "" then None
  else
    start ← (if Path.isAbsolute p then Some ([], root fs)
             else walk [] (root fs) (Str.split "/" (cwd fs)));
    found ← walk (fst start) (snd start) (Str.split "/" p);
    Some (snd found).

(** [existsSync(p)] *)
Definition existsSync (fs : t) (p : string) : bool :=
  match lookup fs p with Some _ => true | None => false end.

(** [readdirSync(p)]: throws unless [p] is a directory. *)
Definition readdirSync (fs : t) (p : string) : option (list string) :=
  match lookup fs p with
  | Some (Dir entries) => Some (map fst entries)
  | _ => None
  end.

(** [statSync(p).isDirectory()]: throws when [p] does not exist. *)
Definition isDirectory (fs : t) (p : string) : option bool :=
  match lookup fs p with
  | Some (Dir _) => Some true
  | Some File => Some false
  | None => None
  end.

End Fs.

(* ------------------------------------------------------------------ *)
(** ** [src/types.ts] *)
(* ------------------------------------------------------------------ *)

(** The [type] of an [EntrypointInfo], as far as this module produces it. *)
Inductive EntrypointType : Type :=
| Background | ContentScript | Popup | Options | Newtab | Devtools
| Bookmarks | History | Sidepanel | Sandbox
| UnlistedPage | UnlistedScript | UnlistedStyle.

Definition EntrypointType_eqb (a b : EntrypointType) : bool :=
  match a, b with
  | Background, Background | ContentScript, ContentScript | Popup, Popup
  | Options, Options | Newtab, Newtab | Devtools, Devtools
  | Bookmarks, Bookmarks | History, History | Sidepanel, Sidepanel
  | Sandbox, Sandbox | UnlistedPage, UnlistedPage
  | UnlistedScript, UnlistedScript | UnlistedStyle, UnlistedStyle => true
  | _, _ => false
  end.

(** [EntrypointInfo] of the host build tool. *)
Record EntrypointInfo : Type := mkEntrypoint {
  name : string;
  inputPath : string;
  type : EntrypointType;
}.

(** [LayerEntrypoints]: declared name to relative path, in
    [Object.entries] order; a value may be [undefined]. *)
Definition LayerEntrypoints : Type := list (string * option string).

(** [LayersCommonOptions] *)
Record LayersCommonOptions : Type := mkCommon {
  layerAlias : option string;
  autoImports : option (list string);
  entrypoints : option LayerEntrypoints;
  publicPrefix : option string;
}.

(** [SourceOptions] *)
Record SourceOptions : Type := mkSource {
  source : string;
  sourceAlias : option string;
  sourceCommon : LayersCommonOptions;
}.

(** [LayerOptions]; the [manifest] callback is identified by a label. *)
Record LayerOptions : Type := mkLayer {
  order : option Z;
  manifest : option string;
  layerCommon : LayersCommonOptions;
}.

Definition noCommon : LayersCommonOptions :=
  {| layerAlias := None; autoImports := None; entrypoints := None; publicPrefix := None |}.

(* ------------------------------------------------------------------ *)
(** ** [@davestewart/wxt-utils] *)
(* ------------------------------------------------------------------ *)

(** A value that is either one [T] or an array of [T]. *)
Inductive OneOrMany (T : Type) : Type :=
| One : T -> OneOrMany T
| Many : list T -> OneOrMany T.
Arguments One {T} _.
Arguments Many {T} _.

(** [toArray] *)
Definition toArray {T : Type} (value : OneOrMany T) : list T :=
  match value with
  | Many l => l
  | One v => [v]
  end.

(** JavaScript values, as far as [shallowMerge] distinguishes them.
    A function value is identified by a label. *)
Inductive jsval : Type :=
| JUndefined
| JNull
| JBool (b : bool)
| JNum (z : Z)
| JStr (s : string)
| JFun (label : string)
| JArr (items : list jsval)
| JObj (props : gmap string jsval).

(** [Array.isArray(v)] *)
Definition isArray (v : jsval) : bool :=
  match v with JArr _ => true | _ => false end.

(** [typeof v === 'object'] *)
Definition typeofObject (v : jsval) : bool :=
  match v with JNull | JArr _ | JObj _ => true | _ => false end.

(** The own enumerable properties an object spread [{...v}] copies. *)
Definition spreadProps (v : jsval) : gmap string jsval :=
  match v with
  | JObj props => props
  | JArr items => list_to_map (imap (fun i x => (pretty i, x)) items)
  | _ => ∅
  end.

(** [target[key]] *)
Definition getProp (target : gmap string jsval) (key : string) : jsval :=
  default JUndefined (target !! key).

(** The value [shallowMerge] stores under a key whose current value is
    [old] when the source holds [value]. *)
Definition mergeValue (old value : jsval) : jsval :=
  match value, old with
  | JArr new, JArr cur => JArr (cur ++ new)
  | _, _ =>
      if typeofObject value && typeofObject old
      then JObj (spreadProps value ∪ spreadProps old)
      else value
  end.

(** [Object.hasOwn(target, key)] *)
Definition hasOwn (target : gmap string jsval) (key : string) : bool :=
  match target !! key with Some _ => true | None => false end.

(** One iteration of the loop of [shallowMerge]: the assignment
    [targetAny[key] = ...].  For the key [__proto__], unless the target
    has an own property of that name, the assignment reaches the
    inherited setter: it can replace the prototype of the target but
    adds no property.  The properties the target inherits from
    [Object.prototype] are functions, which the tests of the loop treat
    as they treat [undefined]. *)
Definition mergeEntry (target : gmap string jsval) (key : string) (value : jsval)
    : gmap string jsval :=
  if String.eqb key "__proto__" && negb (hasOwn target key) then target
  else <[key := mergeValue (getProp target key) value]> target.

(** [shallowMerge(target, source)]: the loop over
    [Object.entries(source)]; what is returned are the own properties
    of the updated target, a plain object. *)
Definition shallowMerge (target source : gmap string jsval) : gmap string jsval :=
  fold_left (fun target '(key, value) => mergeEntry target key value)
            (map_to_list source) target.

(* ------------------------------------------------------------------ *)
(** ** [src/filesystem.ts] *)
(* ------------------------------------------------------------------ *)

(** The [sources] argument of [resolveSources]. *)
Definition SourcesInput : Type := option (OneOrMany (string + SourceOptions)).

(** [resolveSources] *)
Definition resolveSources (cwd rootDir : string) (sources : SourcesInput)
    : list SourceOptions :=
  let inputs := toArray (match sources with Some s => s | None => One (inl "layers/*") end) in
  let objects :=
    map (fun input : string + SourceOptions =>
           match input with
           | inl s => {| source := s; sourceAlias := None; sourceCommon := noCommon |}
           | inr o => o
           end) inputs in
  map (fun input =>
         let path := Path.resolve cwd [rootDir; source input] in
         {| source := path;
            sourceAlias := Some (match sourceAlias input with
                                 | Some a => a
                                 | None => "#{name}"
                                 end);
            sourceCommon := sourceCommon input |}) objects.

(** [getLayerPaths]; [None] when a directory listing throws. *)
Definition getLayerPaths (fs : Fs.t) (sourceConfig : SourceOptions)
    : option (list string) :=
  let absSource := Path.resolve (Fs.cwd fs) [source sourceConfig] in
  if Str.endsWith "/*" absSource then
    let absDir := Str.take (String.length absSource - 2) absSource in
    if Fs.existsSync fs absDir then
      names ← Fs.readdirSync fs absDir;
      flags ← mapM (fun n => Fs.isDirectory fs (Path.join [absDir; n])) names;
      Some (map fst (List.filter snd (combine (map (fun n => Path.join [absDir; n]) names) flags)))
    else Some []
  else if Fs.existsSync fs absSource then Some [absSource]
  else Some [].

(** [determineEntrypointType] *)
Definition determineEntrypointType (name ext : string) : EntrypointType :=
  if Str.includes ext [".css"; ".scss"; ".sass"; ".less"; ".styl"; ".stylus"]
  then UnlistedStyle
  else if String.eqb ext ".html" then
    if String.eqb name "popup" then Popup
    else if String.eqb name "options" then Options
    else if String.eqb name "newtab" then Newtab
    else if String.eqb name "devtools" then Devtools
    else if String.eqb name "bookmarks" then Bookmarks
    else if String.eqb name "history" then History
    else if Str.endsWith ".sidepanel" name || String.eqb name "sidepanel" then Sidepanel
    else if Str.endsWith ".sandbox" name || String.eqb name "sandbox" then Sandbox
    else UnlistedPage
  else if String.eqb name "background" then Background
  else if Str.endsWith ".content" name || String.eqb name "content" then ContentScript
  else UnlistedScript.

(** The file names matched by
    [/^(index)\.(ts|tsx|js|jsx|html|css|scss|sass|less)$/]. *)
Definition indexFileNames : list string :=
  map (fun e => "index." +:+ e)
      ["ts"; "tsx"; "js"; "jsx"; "html"; "css"; "scss"; "sass"; "less"].

(** The body of the loop of [scanLayerEntrypoints] for one directory
    entry: the [name] and [inputPath] it computes. *)
Definition scanEntry (fs : Fs.t) (entrypointsDir entry : string)
    : option (string * string) :=
  let fullPath := Path.join [entrypointsDir; entry] in
  isDir ← Fs.isDirectory fs fullPath;
  if isDir : bool then
    entries ← Fs.readdirSync fs fullPath;
    match find (fun e => Str.includes e indexFileNames) entries with
    | Some indexFile => Some (entry, Path.join [fullPath; indexFile])
    | None => Some ("", "")
    end
  else
    Some (Path.basenameExt entry (Path.extname entry),
          Path.join [entrypointsDir; entry]).

Fixpoint scanEntries (fs : Fs.t) (entrypointsDir : string) (entries : list string)
    (entrypoints : list EntrypointInfo) : option (list EntrypointInfo) :=
  match entries with
  | [] => Some entrypoints
  | entry :: rest =>
      '(name, inputPath) ← scanEntry fs entrypointsDir entry;
      if negb (String.eqb inputPath "") && negb (String.eqb name "") then
        scanEntries fs entrypointsDir rest
          (entrypoints ++
             [{| name := name; inputPath := inputPath;
                 type := determineEntrypointType name (Path.extname inputPath) |}])
      else scanEntries fs entrypointsDir rest entrypoints
  end.

(** [scanLayerEntrypoints]; [None] when a file-system call throws. *)
Definition scanLayerEntrypoints (fs : Fs.t) (layerPath : string)
    : option (list EntrypointInfo) :=
  let entrypointsDir := Path.join [layerPath; "entrypoints"] in
  if negb (Fs.existsSync fs entrypointsDir) then Some []
  else
    entries ← Fs.readdirSync fs entrypointsDir;
    scanEntries fs entrypointsDir entries [].

(** [resolveEntrypoints] *)
Fixpoint resolveEntrypoints (fs : Fs.t) (config : LayerEntrypoints)
    (layerPath : string) : list EntrypointInfo :=
  match config with
  | [] => []
  | (key, path) :: rest =>
      let tail := resolveEntrypoints fs rest layerPath in
      match path with
      | Some path =>
          if negb (String.eqb path "") then
            let inputPath := Path.resolve (Fs.cwd fs) [layerPath; path] in
            if Fs.existsSync fs inputPath then
              let name := hd "" (Str.split "." key) in
              let type := determineEntrypointType key (Path.extname inputPath) in
              {| name := name; inputPath := inputPath; type := type |} :: tail
            else tail
          else tail
      | None => tail
      end
  end.

(** [resolveLayerAutoImportDirs] *)
Definition resolveLayerAutoImportDirs (fs : Fs.t) (layerPath : string)
    (dirs : list string) : list string :=
  List.filter (Fs.existsSync fs) (map (fun dir => Path.join [layerPath; dir]) dirs).

(* ------------------------------------------------------------------ *)
(** ** [src/module.ts] *)
(* ------------------------------------------------------------------ *)

(** [interpolateLayerName] *)
Definition interpolateLayerName (template layerName : string) : string :=
  Str.replaceAll "{name}" layerName template.

(** The names every plain object inherits from [Object.prototype]. What
    is read under them, unless an own property hides it, is a function
    or, for [__proto__], the prototype itself: a truthy value. *)
Definition objectPrototypeKeys : list string :=
  ["constructor"; "__defineGetter__"; "__defineSetter__"; "hasOwnProperty";
   "__lookupGetter__"; "__lookupSetter__"; "isPrototypeOf";
   "propertyIsEnumerable"; "toString"; "valueOf"; "__proto__"; "toLocaleString"].

(** Truthiness of [wxt.config.alias[key]], the table being a plain
    object whose own properties are [alias]: an own path is truthy
    unless empty; without an own property the inherited value is read. *)
Definition aliasDefined (alias : gmap string string) (key : string) : bool :=
  match alias !! key with
  | Some path => negb (String.eqb path "")
  | None => Str.includes key objectPrototypeKeys
  end.

(** [setAlias], on the alias table [wxt.config.alias]. *)
Definition setAlias (path : string) (alias : option string)
    (table : gmap string string) : gmap string string :=
  match alias with
  | None => table
  | Some alias =>
      if String.eqb alias "" then table
      else
        let key := interpolateLayerName alias (Path.basename path) in
        if aliasDefined table key then table
        else <[key := path]> table
  end.

(** The alias registrations of the [layerSources.forEach] loop. *)
Definition setSourceAliases (sources : list SourceOptions)
    (table : gmap string string) : gmap string string :=
  fold_left (fun table src =>
               match sourceAlias src with
               | Some a =>
                   if String.eqb a "" then table
                   else setAlias (Str.removeFirst "/*" (source src)) (Some a) table
               | None => table
               end) sources table.

(** [LayerEntrypointInfo] *)
Record LayerEntrypointInfo : Type := mkLayerEntrypoint {
  leOrder : Z;
  layerName : string;
  entrypointName : string;
  info : EntrypointInfo;
}.

(** A resolved layer: its path and effective options. *)
Record ResolvedLayer : Type := mkResolved {
  path : string;
  options : LayerOptions;
}.

(** What the "process all layers" loop accumulates. *)
Record Collected : Type := mkCollected {
  alias : gmap string string;
  allEntrypoints : list LayerEntrypointInfo;
  allAutoImportPaths : list string;
}.

(** The entrypoints of one layer, tagged as the loop body tags them. *)
Definition collectEntrypoints (layerPath : string) (layerOptions : LayerOptions)
    (layerEntrypoints : list EntrypointInfo) : list LayerEntrypointInfo :=
  map (fun entrypoint =>
         {| layerName := Path.basename layerPath;
            entrypointName := name entrypoint;
            leOrder := match order layerOptions with Some o => o | None => 100%Z end;
            info := entrypoint |}) layerEntrypoints.

(** One iteration of the loop over [resolvedLayers]. *)
Definition processLayer (fs : Fs.t) (acc : Collected) (layer : ResolvedLayer)
    : option Collected :=
  let layerPath := path layer in
  let layerOptions := options layer in
  let common := layerCommon layerOptions in
  let alias' := setAlias layerPath (layerAlias common) (alias acc) in
  layerEntrypoints ←
    match entrypoints common with
    | Some config => Some (resolveEntrypoints fs config layerPath)
    | None => scanLayerEntrypoints fs layerPath
    end;
  let autoImportPaths :=
    resolveLayerAutoImportDirs fs layerPath
      (match autoImports common with Some dirs => dirs | None => [] end) in
  Some {| alias := alias';
          allEntrypoints :=
            allEntrypoints acc ++ collectEntrypoints layerPath layerOptions layerEntrypoints;
          allAutoImportPaths := allAutoImportPaths acc ++ autoImportPaths |}.

(** The loop over [resolvedLayers]; [None] when a scan throws. *)
Fixpoint processLayers (fs : Fs.t) (layers : list ResolvedLayer) (acc : Collected)
    : option Collected :=
  match layers with
  | [] => Some acc
  | layer :: rest =>
      acc' ← processLayer fs acc layer;
      processLayers fs rest acc'
  end.

Definition MODULE_NAME : string := "wxt-module-layers:background".

(** The virtual background entrypoint. *)
Definition virtualBackground : EntrypointInfo :=
  {| name := "background"; inputPath := MODULE_NAME; type := Background |}.

Definition isBackground (e : EntrypointInfo) : bool :=
  EntrypointType_eqb (type e) Background.

(** The first loop of the [entrypoints:found] hook: layer backgrounds are
    set aside, every other layer entrypoint is pushed on the host's list. *)
Fixpoint addEntrypoints (all : list LayerEntrypointInfo)
    (layerBackgrounds : list LayerEntrypointInfo)
    (entrypointInfos : list EntrypointInfo)
    : list LayerEntrypointInfo * list EntrypointInfo :=
  match all with
  | [] => (layerBackgrounds, entrypointInfos)
  | entrypoint :: rest =>
      if isBackground (info entrypoint)
      then addEntrypoints rest (layerBackgrounds ++ [entrypoint]) entrypointInfos
      else addEntrypoints rest layerBackgrounds (entrypointInfos ++ [info entrypoint])
  end.

(** Insertion of [x] before the first element whose order is not smaller:
    elements of equal order keep their relative position. *)
Fixpoint insertByOrder (x : LayerEntrypointInfo) (l : list LayerEntrypointInfo)
    : list LayerEntrypointInfo :=
  match l with
  | [] => [x]
  | y :: l' =>
      if (leOrder y <? leOrder x)%Z then y :: insertByOrder x l' else x :: l
  end.

(** [list.sort((a, b) => a.order - b.order)]: [Array.prototype.sort] is
    stable, so with this comparator its result is the one of a stable
    insertion sort. *)
Definition sortByOrder (l : list LayerEntrypointInfo) : list LayerEntrypointInfo :=
  fold_right insertByOrder [] l.

(** The [entrypoints:found] hook: the host's list after the hook, and the
    entrypoints handed to [createLayerBackgroundsPlugin] when the virtual
    background is created. *)
Definition entrypointsFound (all : list LayerEntrypointInfo)
    (entrypointInfos : list EntrypointInfo)
    : list EntrypointInfo * option (list LayerEntrypointInfo) :=
  let '(layerBackgrounds, infos) := addEntrypoints all [] entrypointInfos in
  let existingBackground := find isBackground infos in
  match existingBackground, layerBackgrounds with
  | None, _ :: _ => (infos ++ [virtualBackground], Some (sortByOrder layerBackgrounds))
  | _, _ => (infos, None)
  end.

(** The identifier [load] gives the default export of a layer background. *)
Definition handlerName (entrypoint : LayerEntrypointInfo) : string :=
  "init_" +:+ Str.squashNonWord false (layerName entrypoint).

(** The [import] statements of the generated module: identifier and
    module path. *)
Definition pluginImports (entrypoints : list LayerEntrypointInfo)
    : list (string * string) :=
  map (fun e => (handlerName e, inputPath (info e))) entrypoints.

(** The [handlers] array of the generated module. *)
Definition pluginHandlers (entrypoints : list LayerEntrypointInfo) : list string :=
  map handlerName entrypoints.

(** The generated module. *)
Section RunAll.

(** The values handlers exchange, and the state they act on. *)
Context {V W : Type}.

(** What a call of a handler produces. *)
Inductive Returned : Type :=
| Plain (v : V)         (* a value that is not a promise *)
| Fulfilled (v : V)     (* a promise, fulfilled with [v] once awaited *)
| Failed.               (* an exception, or a rejected promise *)

(** One iteration of the loop of [runAll], as a function of
    [prevResult] and the state. *)
Definition Handler : Type := V -> W -> Returned * W.

(** The default export of a layer background module, as far as [runAll]
    uses it: its [name] property when that is a string, and what calling
    it does when it is a function. *)
Record Export : Type := mkExport {
  exportName : option string;
  exportCall : option Handler;
}.

(** The body of the loop for one handler: [handler.name.substring(5)],
    a [TypeError] unless the name is a string, then
    [handler(prevResult)], a [TypeError] unless the export is a
    function. *)
Definition callExport (handler : Export) : Handler :=
  fun prevResult w =>
    match exportName handler with
    | None => (Failed, w)
    | Some _ =>
        match exportCall handler with
        | None => (Failed, w)
        | Some call => call prevResult w
        end
    end.

(** The [for] loop of [runAll] from [prevResult]: the last result
    ([None] when a handler failed, which ends the loop) and the state. *)
Fixpoint runFrom (handlers : list Handler) (prevResult : V) (w : W)
    : option V * W :=
  match handlers with
  | [] => (Some prevResult, w)
  | handler :: rest =>
      match handler prevResult w with
      | (Plain result, w') => runFrom rest result w'
      | (Fulfilled result, w') => runFrom rest result w'
      | (Failed, w') => (None, w')
      end
  end.

(** [runAll()] over the [handlers] array: [prevResult] starts as
    [undefined]. *)
Definition runAll (undefined : V) (handlers : list Export) (w : W)
    : option V * W :=
  runFrom (map callExport handlers) undefined w.

(** The module path an identifier was imported from. *)
Fixpoint importedPath (identifier : string) (imports : list (string * string))
    : option string :=
  match imports with
  | [] => None
  | (name, path) :: rest =>
      if String.eqb name identifier then Some path
      else importedPath identifier rest
  end.

(** No name occurs twice. *)
Fixpoint distinctNames (names : list string) : bool :=
  match names with
  | [] => true
  | name :: rest => negb (Str.includes name rest) && distinctNames rest
  end.

(** Loading the generated module, [exports] giving the default export
    of the module at a path, if it has one: the values of the [handlers]
    array.  The module does not load ([None]) when two [import]
    statements declare the same identifier, or an imported module has no
    default export. *)
Definition loadHandlers (exports : string -> option Export)
    (entrypoints : list LayerEntrypointInfo) : option (list Export) :=
  let imports := pluginImports entrypoints in
  if distinctNames (map fst imports) then
    mapM (fun identifier =>
            path ← importedPath identifier imports;
            exports path)
         (pluginHandlers entrypoints)
  else None.

(** [main()] of the virtual background, which starts [runAll]: [None]
    when the module does not load, else what [runAll] comes to. *)
Definition virtualBackgroundMain (undefined : V) (exports : string -> option Export)
    (entrypoints : list LayerEntrypointInfo) (w : W) : option (option V * W) :=
  handlers ← loadHandlers exports entrypoints;
  Some (runAll undefined handlers w).

End RunAll.

(** [wxt.config.imports], as far as the hook reads it. *)
Record ImportsConfig : Type := mkImports {
  disabled : bool;
  dirs : option (list string);
}.

(** The loop of the [config:resolved] hook over [allAutoImportPaths]. *)
Fixpoint addImportDirs (cwd srcDir : string) (paths : list string)
    (dirs : list string) : list string :=
  match paths with
  | [] => dirs
  | importPath :: rest =>
      if Str.includes importPath dirs then addImportDirs cwd srcDir rest dirs
      else addImportDirs cwd srcDir rest (dirs ++ [Path.relative cwd srcDir importPath])
  end.

(** The [config:resolved] hook. *)
Definition configResolved (cwd srcDir : string) (allAutoImportPaths : list string)
    (imports : ImportsConfig) : ImportsConfig :=
  match allAutoImportPaths with
  | [] => imports
  | _ :: _ =>
      if disabled imports then imports
      else
        {| disabled := disabled imports;
           dirs := Some (addImportDirs cwd srcDir allAutoImportPaths
                           (match dirs imports with Some d => d | None => [] end)) |}
  end.

(* ------------------------------------------------------------------ *)
(** ** The classifier as the specification words it *)
(* ------------------------------------------------------------------ *)

(** The decision list of section 4.2, in the order it is written: a rule
    is a test on (name, extension) and the kind it yields; the first rule
    whose test succeeds wins, and a name no rule accepts is an unlisted
    script. *)
Definition Rule : Type := (string -> string -> bool) * EntrypointType.

Definition stylesheetExtensions : list string :=
  [".css"; ".scss"; ".sass"; ".less"; ".styl"; ".stylus"].

Definition qualified (kind : string) (name : string) : bool :=
  String.eqb name kind || Str.endsWith (String "." kind) name.

Definition page (kind : string) : string -> string -> bool :=
  fun name ext => String.eqb ext ".html" && String.eqb name kind.

Definition classifierRules : list Rule :=
  [ (fun _ ext => Str.includes ext stylesheetExtensions, UnlistedStyle);
    (page "popup", Popup);
    (page "options", Options);
    (page "newtab", Newtab);
    (page "devtools", Devtools);
    (page "bookmarks", Bookmarks);
    (page "history", History);
    (fun name ext => String.eqb ext ".html" && qualified "sidepanel" name, Sidepanel);
    (fun name ext => String.eqb ext ".html" && qualified "sandbox" name, Sandbox);
    (fun _ ext => String.eqb ext ".html", UnlistedPage);
    (fun name _ => qualified "content" name, ContentScript);
    (fun name _ => String.eqb name "background", Background) ].

Fixpoint firstMatch (rules : list Rule) (name ext : string) : EntrypointType :=
  match rules with
  | [] => UnlistedScript
  | (test, kind) :: rest => if test name ext then kind else firstMatch rest name ext
  end.

Definition classify (name ext : string) : EntrypointType :=
  firstMatch classifierRules name ext.

(* ------------------------------------------------------------------ *)
(** ** Alias registrations *)
(* ------------------------------------------------------------------ *)

(** A registration attempt: the arguments of one call of [setAlias]. *)
Definition Registration : Type := (string * option string)%type.

(** A sequence of calls of [setAlias]. *)
Definition setAliases (regs : list Registration) (table : gmap string string)
    : gmap string string :=
  fold_left (fun table '(path, alias) => setAlias path alias table) regs table.

(** The key a call of [setAlias] registers under; none when the call
    returns at once because the alias is empty or missing. *)
Definition aliasKey (reg : Registration) : option string :=
  match snd reg with
  | None => None
  | Some alias =>
      if String.eqb alias "" then None
      else Some (interpolateLayerName alias (Path.basename (fst reg)))
  end.

(** The path of the first registration attempted under [key]. *)
Fixpoint firstRegistered (key : string) (regs : list Registration) : option string :=
  match regs with
  | [] => None
  | reg :: rest =>
      match aliasKey reg with
      | Some k => if String.eqb k key then Some (fst reg) else firstRegistered key rest
      | None => firstRegistered key rest
      end
  end.

(** Every path bound in the table is a non-empty string. *)
Definition boundPathsNonEmpty (table : gmap string string) : Prop :=
  forall key path, table !! key = Some path -> path <> "".

(* ------------------------------------------------------------------ *)
(** ** A sample project *)
(* ------------------------------------------------------------------ *)

(** [/p] with a host source folder and four layers:
    - [layers/demo]: [entrypoints/popup.html], [entrypoints/background.ts],
      [content/linkedin.ts], [utils/];
    - [layers/styles]: [entrypoints/foo.ts], [entrypoints/foo.css],
      [entrypoints/bar/index.ts], [entrypoints/empty/];
    - [layers/other]: [entrypoints/foo.ts], [entrypoints/background.ts];
    - [layers/extra]: [entrypoints/foo.ts]. *)
Definition sampleRoot : Fs.node :=
  Fs.Dir [("p", Fs.Dir [
    ("src", Fs.Dir [("entrypoints", Fs.Dir [])]);
    ("layers", Fs.Dir [
      ("demo", Fs.Dir [
        ("entrypoints", Fs.Dir [("popup.html", Fs.File); ("background.ts", Fs.File)]);
        ("content", Fs.Dir [("linkedin.ts", Fs.File)]);
        ("utils", Fs.Dir [])]);
      ("styles", Fs.Dir [
        ("entrypoints", Fs.Dir [
          ("foo.ts", Fs.File);
          ("foo.css", Fs.File);
          ("bar", Fs.Dir [("index.ts", Fs.File)]);
          ("empty", Fs.Dir [])])]);
      ("other", Fs.Dir [
        ("entrypoints", Fs.Dir [("foo.ts", Fs.File); ("background.ts", Fs.File)])]);
      ("extra", Fs.Dir [
        ("entrypoints", Fs.Dir [("foo.ts", Fs.File)])])])])].

Definition sampleFs : Fs.t := {| Fs.root := sampleRoot; Fs.cwd := "/p" |}.

Definition defaultLayerOptions : LayerOptions :=
  {| order := None; manifest := None; layerCommon := noCommon |}.

Definition emptyCollected : Collected :=
  {| alias := ∅; allEntrypoints := []; allAutoImportPaths := [] |}.

(* ------------------------------------------------------------------ *)
(** ** Vocabulary of the properties and sample data *)
(* ------------------------------------------------------------------ *)

(** The options object a declared source stands for: a bare string is
    the object holding only that [source]. *)
Definition asSourceOptions (input : string + SourceOptions) : SourceOptions :=
  match input with
  | inl s => {| source := s; sourceAlias := None; sourceCommon := noCommon |}
  | inr o => o
  end.

(** What normalization must yield for one declared source. *)
Definition normalizedFrom (cwd rootDir : string) (input : string + SourceOptions)
    (out : SourceOptions) : Prop :=
  source out = Path.resolve cwd [rootDir; source (asSourceOptions input)] /\
  Path.isAbsolute (source out) = true /\
  sourceAlias out = Some (default "#{name}" (sourceAlias (asSourceOptions input))) /\
  sourceCommon out = sourceCommon (asSourceOptions input).

(** The registrations [setup] attempts for the sources, then for the
    layers. *)
Definition sourceRegistrations (sources : list SourceOptions) : list Registration :=
  map (fun src => (Str.removeFirst "/*" (source src), sourceAlias src)) sources.

Definition layerRegistrations (layers : list ResolvedLayer) : list Registration :=
  map (fun layer => (path layer, layerAlias (layerCommon (options layer)))) layers.

(** The key of a registration, if any, is not a name the table
    inherits. *)
Definition ownKey (reg : Registration) : Prop :=
  match aliasKey reg with
  | Some key => Str.includes key objectPrototypeKeys = false
  | None => True
  end.

(** A registration of a non-empty path under a key the table does not
    inherit. *)
Definition plainRegistration (reg : Registration) : Prop :=
  fst reg <> "" /\ ownKey reg.

(** The registrations of a project whose only source is ["/*"], followed
    by the one of a layer aliased [#]. *)
Definition rootSourceRegistrations : list Registration :=
  sourceRegistrations (resolveSources "/p" "/p" (Some (Many [inl "/*"]))) ++
  [("/p/layers/demo", Some "#")].

Definition sampleRegistrations : list Registration :=
  [("/p/layers", Some "#{name}");
   ("/p/layers/demo", Some "#{name}");
   ("/p/vendor/demo", Some "#{name}");
   ("/p/layers/other", Some "");
   ("/p/layers/styles", Some "#demo")].

(** The part of a declared name before its first dot: [key.split('.')[0]]. *)
Definition beforeQualifier (key : string) : string := hd "" (Str.split "." key).

(** The entrypoint [resolveEntrypoints] builds for a declaration. *)
Definition explicitEntry (fs : Fs.t) (layerPath key path : string) : EntrypointInfo :=
  let inputPath := Path.resolve (Fs.cwd fs) [layerPath; path] in
  {| name := beforeQualifier key;
     inputPath := inputPath;
     type := determineEntrypointType key (Path.extname inputPath) |}.

(** The entrypoint the specification describes for a declaration: the
    declared name kept, the part before the qualifier classified. *)
Definition verbatimEntry (fs : Fs.t) (layerPath key path : string) : EntrypointInfo :=
  let inputPath := Path.resolve (Fs.cwd fs) [layerPath; path] in
  {| name := key;
     inputPath := inputPath;
     type := determineEntrypointType (beforeQualifier key) (Path.extname inputPath) |}.

Definition sampleExplicit : LayerEntrypoints :=
  [("background", Some "entrypoints/background.ts");
   ("linkedin.content", Some "content/linkedin.ts");
   ("twitter.content", Some "content/twitter.ts");
   ("unused", None)].

Definition nonEmpty (s : string) : bool := negb (String.eqb s "").

(** The entrypoint name a directory entry stands for; empty for a
    directory without an index file. *)
Definition entryName (fs : Fs.t) (entrypointsDir entry : string) : string :=
  let fullPath := Path.join [entrypointsDir; entry] in
  match Fs.isDirectory fs fullPath with
  | Some true =>
      match find (fun e => Str.includes e indexFileNames)
                 (default [] (Fs.readdirSync fs fullPath)) with
      | Some _ => entry
      | None => ""
      end
  | _ => Path.basenameExt entry (Path.extname entry)
  end.

Definition isLayerBackground (e : LayerEntrypointInfo) : bool :=
  isBackground (info e).

(** The layer entrypoints the hook pushes on the host's list. *)
Definition pushedInfos (all : list LayerEntrypointInfo) : list EntrypointInfo :=
  map info (List.filter (fun e => negb (isLayerBackground e)) all).

(** The layer entrypoints the hook sets aside. *)
Definition layerBackgroundsOf (all : list LayerEntrypointInfo)
    : list LayerEntrypointInfo :=
  List.filter isLayerBackground all.

Definition collidingLayers : list ResolvedLayer :=
  [{| path := "/p/layers/other"; options := defaultLayerOptions |};
   {| path := "/p/layers/extra"; options := defaultLayerOptions |}].

Definition orderLe (a b : LayerEntrypointInfo) : Prop := (leOrder a <= leOrder b)%Z.


(** A handler that computes [f] and does not fail; [async] tells whether
    it answers with a promise. *)
Definition settled {V W : Type} (h : (V -> W -> V * W) * bool) : @Handler V W :=
  fun prev w =>
    let '(result, w') := fst h prev w in
    (if snd h then Fulfilled result else Plain result, w').


(** A default export that is a function named [name], computing [h]. *)
Definition functionExport {V W : Type} (name : string)
    (h : (V -> W -> V * W) * bool) : @Export V W :=
  {| exportName := Some name; exportCall := Some (settled h) |}.

(** A default export that is an object without a [name], such as the
    [{ main }] that [defineBackground] makes of a function. *)
Definition objectExport {V W : Type} : @Export V W :=
  {| exportName := None; exportCall := None |}.

(** A project with a layer [auth] under each of two sources, both with
    a background. *)
Definition twinFs : Fs.t :=
  {| Fs.root :=
       Fs.Dir [("p", Fs.Dir [
         ("layers", Fs.Dir [("auth", Fs.Dir [
            ("entrypoints", Fs.Dir [("background.ts", Fs.File)])])]);
         ("vendor", Fs.Dir [("auth", Fs.Dir [
            ("entrypoints", Fs.Dir [("background.ts", Fs.File)])])])])];
     Fs.cwd := "/p" |}.

Definition twinLayers : list ResolvedLayer :=
  [{| path := "/p/layers/auth"; options := defaultLayerOptions |};
   {| path := "/p/vendor/auth"; options := defaultLayerOptions |}].

(** What the background of layer [x] does: it appends [x] to what it
    receives; the one of layer [b] answers with a promise. *)
Definition sampleImpl (path : string) : (string -> unit -> string * unit) * bool :=
  (fun prev w => (prev +:+ Str.take 1 (Str.drop 10 path), w),
   String.eqb path "/p/layers/b/entrypoints/background.ts").

Definition sampleExports (path : string) : option (@Export string unit) :=
  Some (functionExport "default" (sampleImpl path)).

Definition layerBackground (layer : string) (o : Z) : LayerEntrypointInfo :=
  {| leOrder := o; layerName := layer; entrypointName := "background";
     info := {| name := "background";
                inputPath := "/p/layers/" +:+ layer +:+ "/entrypoints/background.ts";
                type := Background |} |}.

Definition sampleCollected : list LayerEntrypointInfo :=
  [layerBackground "a" 10;
   {| leOrder := 10; layerName := "a"; entrypointName := "popup";
      info := {| name := "popup"; inputPath := "/p/layers/a/entrypoints/popup.html";
                 type := Popup |} |};
   layerBackground "b" 5;
   layerBackground "c" 20;
   layerBackground "d" 5].

Definition utilsOptions : LayerOptions :=
  {| order := None; manifest := None;
     layerCommon := {| layerAlias := None; autoImports := Some ["utils"];
                       entrypoints := None; publicPrefix := None |} |}.

Definition mergeStep (target : gmap string jsval) (entry : string * jsval)
    : gmap string jsval :=
  mergeEntry target entry.1 entry.2.

(** What one assignment of the loop leaves under a key whose own value
    was [old]. *)
Definition mergedAt (old : option jsval) (key : string) (value : jsval)
    : option jsval :=
  match old with
  | Some cur => Some (mergeValue cur value)
  | None => if String.eqb key "__proto__" then None
            else Some (mergeValue JUndefined value)
  end.

Definition sampleModuleOptions : gmap string jsval :=
  <["autoImports" := JArr [JStr "utils"]]> (<["layerAlias" := JStr "@{name}"]> ∅).

Definition sampleLayerOptions : gmap string jsval :=
  <["autoImports" := JArr [JStr "hooks"]]> (<["order" := JNum 5]> ∅).

(* ------------------------------------------------------------------ *)
(** ** Vocabulary of the further properties *)
(* ------------------------------------------------------------------ *)

(** The three families of kinds the classifier separates. *)
Inductive KindFamily : Type := StyleKind | PageKind | ScriptKind.

Definition familyOf (kind : EntrypointType) : KindFamily :=
  match kind with
  | UnlistedStyle => StyleKind
  | Popup | Options | Newtab | Devtools | Bookmarks | History
  | Sidepanel | Sandbox | UnlistedPage => PageKind
  | Background | ContentScript | UnlistedScript => ScriptKind
  end.

(** The characters of a string. *)
Definition chars (s : string) : list ascii := list_ascii_of_string s.

(** A name as a directory listing returns it: not empty, no separator. *)
Definition plainName (entry : string) : Prop :=
  entry <> "" /\ ~ In "/"%char (chars entry).

(** A layer whose [entrypoints] is a regular file, beside a layer
    without that folder. *)
Definition oddFs : Fs.t :=
  {| Fs.root :=
       Fs.Dir [("p", Fs.Dir [("layers", Fs.Dir [
         ("flat", Fs.Dir [("entrypoints", Fs.File)]);
         ("bare", Fs.Dir [("README.md", Fs.File)]);
         ("misc", Fs.Dir [("entrypoints", Fs.Dir [
            (".gitkeep", Fs.File); ("notes.md", Fs.File);
            ("x.content.ts", Fs.File)])])])])];
     Fs.cwd := "/p" |}.

(** The entrypoints of one layer, as the loop body of [setup] obtains
    them: from the explicit map when the layer has one, else by a scan. *)
Definition layerEntrypointsOf (fs : Fs.t) (layer : ResolvedLayer)
    : option (list EntrypointInfo) :=
  match entrypoints (layerCommon (options layer)) with
  | Some config => Some (resolveEntrypoints fs config (path layer))
  | None => scanLayerEntrypoints fs (path layer)
  end.

(** The body of [setup] up to the registration of its hooks, with the
    result of [resolveLayers] as an argument: no source, or no layer,
    ends it early. *)
Definition setup (fs : Fs.t) (rootDir : string) (sources : SourcesInput)
    (resolvedLayers : list ResolvedLayer) (table : gmap string string)
    : option Collected :=
  let layerSources := resolveSources (Fs.cwd fs) rootDir sources in
  match layerSources with
  | [] => Some {| alias := table; allEntrypoints := []; allAutoImportPaths := [] |}
  | _ :: _ =>
      let table' := setSourceAliases layerSources table in
      match resolvedLayers with
      | [] => Some {| alias := table'; allEntrypoints := []; allAutoImportPaths := [] |}
      | _ :: _ =>
          processLayers fs resolvedLayers
            {| alias := table'; allEntrypoints := []; allAutoImportPaths := [] |}
      end
  end.

Definition explicitLayer : ResolvedLayer :=
  {| path := "/p/layers/flat";
     options := {| order := Some 0%Z; manifest := None;
                   layerCommon := {| layerAlias := Some "#{name}";
                                     autoImports := Some ["utils"];
                                     entrypoints := Some [];
                                     publicPrefix := None |} |} |}.

Definition demoLayer : ResolvedLayer :=
  {| path := "/p/layers/demo";
     options := {| order := None; manifest := None;
                   layerCommon := {| layerAlias := Some "#{name}";
                                     autoImports := Some ["utils"; "hooks"];
                                     entrypoints := None;
                                     publicPrefix := None |} |} |}.

(** [pat] occurs in [s]. *)
Fixpoint occurs (pat s : string) : bool :=
  Str.startsWith pat s ||
  match s with
  | EmptyString => false
  | String _ s' => occurs pat s'
  end.

(** The character [c] occurs in [s]. *)
Fixpoint hasChar (c : ascii) (s : string) : bool :=
  match s with
  | EmptyString => false
  | String a s' => Ascii.eqb a c || hasChar c s'
  end.

(** Options whose [entrypoints] objects share the property [extra]. *)
Definition nestedTarget : gmap string jsval :=
  <["entrypoints" := JObj (<["popup" := JStr "a.html"]>
                            (<["extra" := JArr [JStr "x"]]> ∅))]> ∅.

Definition nestedSource : gmap string jsval :=
  <["entrypoints" := JObj (<["extra" := JArr [JStr "y"]]> ∅)]> ∅.

(** [plural] of the logging helpers, for a count that is a natural
    number (the length of an array, at every call of this module). *)
Definition plural (word : string) (count : nat) (includeWord : bool) : string :=
  let parts := Str.split "|" word in
  let single := hd "" parts in
  let plural := match parts with
                | _ :: p :: _ => p
                | _ => single +:+ "s"
                end in
  let wordToUse :=
    if (count =? 1)%nat then single
    else if negb (String.eqb plural "") then plural else single in
  if includeWord then pretty count +:+ " " +:+ wordToUse else wordToUse.

(** A host list with its own background. *)
Definition hostWithBackground : list EntrypointInfo :=
  [{| name := "background"; inputPath := "/p/src/entrypoints/background.ts";
      type := Background |}].

(* ================================================================== *)
(** * Properties *)
(* ================================================================== *)

(* ------------------------------------------------------------------ *)
(** ** Classification *)
(* ------------------------------------------------------------------ *)

(** C3. The classifier reproduces the reference table -
    [('background','.ts')] is a background, [('popup','.html')] a popup,
    [('x.content','.ts')] a content script, [('x.sidepanel','.html')] a
    side panel, [('styles','.scss')] an unlisted style and
    [('random','.ts')] an unlisted script - and on every name and
    extension it agrees with the decision list of the specification:
    stylesheet extensions first, then [.html] names against the page list
    and the [.sidepanel]/[.sandbox] rule, then script names, the first
    match winning. *)
Theorem classification_exact :
  determineEntrypointType "background" ".ts" = Background /\
  determineEntrypointType "popup" ".html" = Popup /\
  determineEntrypointType "x.content" ".ts" = ContentScript /\
  determineEntrypointType "x.sidepanel" ".html" = Sidepanel /\
  determineEntrypointType "styles" ".scss" = UnlistedStyle /\
  determineEntrypointType "random" ".ts" = UnlistedScript /\
  forall name ext, determineEntrypointType name ext = classify name ext.
Proof.
  repeat (split; [reflexivity|]).
  intros name ext.
  unfold determineEntrypointType, classify, classifierRules, firstMatch,
    page, qualified, stylesheetExtensions.
  destruct (Str.includes ext _); [reflexivity|].
  destruct (String.eqb ext ".html"); cbn [andb].
  - repeat match goal with
           | |- context [String.eqb name ?k] => destruct (String.eqb name k)
           | |- context [Str.endsWith ?k name] => destruct (Str.endsWith k name)
           end; reflexivity.
  - destruct (String.eqb name "background") eqn:Hbg.
    + apply String.eqb_eq in Hbg. subst name. reflexivity.
    + rewrite (orb_comm (String.eqb name "content")). reflexivity.
Qed.

(* ------------------------------------------------------------------ *)
(** ** Source normalization *)
(* ------------------------------------------------------------------ *)

Lemma resolveScan_absolute cwd parts acc :
  Path.isAbsolute cwd = true ->
  snd (Path.resolveScan (parts ++ [cwd]) acc) = true.
Proof.
  intros Hcwd. revert acc.
  induction parts as [|p parts IH]; intros acc; cbn [app Path.resolveScan].
  - destruct (String.eqb cwd "") eqn:He.
    + apply String.eqb_eq in He. subst cwd. discriminate.
    + rewrite Hcwd. reflexivity.
  - destruct (String.eqb p ""); [apply IH|].
    destruct (Path.isAbsolute p); [reflexivity|apply IH].
Qed.

Lemma resolve_absolute cwd parts :
  Path.isAbsolute cwd = true ->
  Path.isAbsolute (Path.resolve cwd parts) = true.
Proof.
  intros Hcwd. unfold Path.resolve.
  pose proof (resolveScan_absolute cwd (rev parts) "" Hcwd) as Hs.
  destruct (Path.resolveScan (rev parts ++ [cwd]) "") as [acc abs].
  cbn in Hs. subst abs. reflexivity.
Qed.

(** C10. Source normalization returns one options object per declared
    source, in order: its path is the declared path resolved against the
    root directory and is absolute, a bare string counts as the object
    holding only that path, [sourceAlias] is ["#{name}"] unless set and
    every other option is kept; with no [sources] at all the result is
    the single source ["layers/*"]. *)
Theorem resolveSources_normalizes (cwd rootDir : string) (sources : SourcesInput) :
  Path.isAbsolute cwd = true ->
  Forall2 (normalizedFrom cwd rootDir)
    (toArray (default (One (inl "layers/*")) sources))
    (resolveSources cwd rootDir sources) /\
  resolveSources cwd rootDir None =
    [{| source := Path.resolve cwd [rootDir; "layers/*"];
        sourceAlias := Some "#{name}";
        sourceCommon := noCommon |}].
Proof.
  intros Hcwd. split; [|reflexivity].
  unfold resolveSources.
  replace (match sources with Some s => s | None => One (inl "layers/*") end)
    with (default (One (inl "layers/*")) sources) by (destruct sources; reflexivity).
  induction (toArray (default (One (inl "layers/*")) sources)) as [|input inputs IH];
    cbn [map]; constructor; [|exact IH].
  unfold normalizedFrom. cbn [source sourceAlias sourceCommon].
  split; [destruct input; reflexivity|].
  split; [apply resolve_absolute, Hcwd|].
  split; [|destruct input; reflexivity].
  destruct input as [s|o]; cbn; [reflexivity|].
  destruct (sourceAlias o); reflexivity.
Qed.

Lemma resolveSources_normalizes_witness :
  Forall2 (normalizedFrom "/p" ".")
    [inl "layers/*";
     inr {| source := "/abs/feature"; sourceAlias := Some "";
            sourceCommon := noCommon |}]
    (resolveSources "/p" "."
       (Some (Many [inl "layers/*";
                    inr {| source := "/abs/feature"; sourceAlias := Some "";
                           sourceCommon := noCommon |}]))).
Proof.
  exact (proj1 (resolveSources_normalizes "/p" "."
    (Some (Many [inl "layers/*";
                 inr {| source := "/abs/feature"; sourceAlias := Some "";
                        sourceCommon := noCommon |}])) eq_refl)).
Defined.

(* ------------------------------------------------------------------ *)
(** ** Alias table *)
(* ------------------------------------------------------------------ *)

Lemma aliasDefined_bound table key path :
  boundPathsNonEmpty table ->
  table !! key = Some path ->
  aliasDefined table key = true.
Proof.
  intros Hne Hk. unfold aliasDefined. rewrite Hk.
  destruct (String.eqb path "") eqn:He; [|reflexivity].
  apply String.eqb_eq in He. exfalso. exact (Hne _ _ Hk He).
Qed.

Lemma aliasDefined_unbound table key :
  Str.includes key objectPrototypeKeys = false ->
  table !! key = None -> aliasDefined table key = false.
Proof. intros Hown Hk. unfold aliasDefined. rewrite Hk. exact Hown. Qed.

(** One call of [setAlias] seen through its key. *)
Lemma setAlias_key table reg :
  ownKey reg ->
  boundPathsNonEmpty table ->
  setAlias (fst reg) (snd reg) table =
    match aliasKey reg with
    | None => table
    | Some key =>
        match table !! key with
        | Some _ => table
        | None => <[key := fst reg]> table
        end
    end.
Proof.
  intros Hown Hne. unfold ownKey in Hown.
  destruct reg as [p [a|]]; cbn; [|reflexivity].
  unfold aliasKey in *; cbn in *.
  destruct (String.eqb a ""); [reflexivity|].
  destruct (table !! interpolateLayerName a (Path.basename p)) eqn:Hk.
  - rewrite (aliasDefined_bound _ _ _ Hne Hk). reflexivity.
  - rewrite (aliasDefined_unbound _ _ Hown Hk). reflexivity.
Qed.

Lemma setAlias_keeps_nonempty table reg :
  fst reg <> "" ->
  boundPathsNonEmpty table ->
  boundPathsNonEmpty (setAlias (fst reg) (snd reg) table).
Proof.
  intros Hp Hne. destruct reg as [p [a|]]; cbn [fst snd setAlias] in *; [|exact Hne].
  destruct (String.eqb a ""); [exact Hne|].
  destruct (aliasDefined table _); [exact Hne|].
  intros k v. rewrite lookup_insert. case_decide.
  - intros [= <-]. exact Hp.
  - apply Hne.
Qed.

Lemma setAliases_app regs1 regs2 table :
  setAliases (regs1 ++ regs2) table = setAliases regs2 (setAliases regs1 table).
Proof. unfold setAliases. apply fold_left_app. Qed.

Lemma setAliases_keeps_nonempty regs table :
  Forall plainRegistration regs ->
  boundPathsNonEmpty table ->
  boundPathsNonEmpty (setAliases regs table).
Proof.
  intros Hregs. revert table.
  induction Hregs as [|[p a] regs [Hp _] _ IH]; intros table Hne; [exact Hne|].
  cbn. apply IH. exact (setAlias_keeps_nonempty table (p, a) Hp Hne).
Qed.

Lemma setAliases_lookup regs table key :
  Forall plainRegistration regs ->
  boundPathsNonEmpty table ->
  setAliases regs table !! key =
    match table !! key with
    | Some path => Some path
    | None => firstRegistered key regs
    end.
Proof.
  intros Hregs. revert table.
  induction Hregs as [|[p a] regs [Hp Hown] _ IH]; intros table Hne.
  - cbn. destruct (table !! key); reflexivity.
  - change (setAliases ((p, a) :: regs) table)
      with (setAliases regs (setAlias (fst (p, a)) (snd (p, a)) table)).
    rewrite IH by exact (setAlias_keeps_nonempty table (p, a) Hp Hne).
    rewrite (setAlias_key _ _ Hown Hne). cbn [firstRegistered].
    destruct (aliasKey (p, a)) as [k|]; [|reflexivity].
    destruct (String.eqb k key) eqn:Hkk.
    + apply String.eqb_eq in Hkk. subst k.
      destruct (table !! key) eqn:Hk; [rewrite Hk; reflexivity|].
      rewrite lookup_insert_eq. reflexivity.
    + apply String.eqb_neq in Hkk.
      destruct (table !! k) eqn:Hk; [reflexivity|].
      rewrite lookup_insert_ne by exact Hkk. reflexivity.
Qed.

(** The calls [setup] makes are such sequences of registrations. *)
Lemma setSourceAliases_registrations sources table :
  setSourceAliases sources table = setAliases (sourceRegistrations sources) table.
Proof.
  unfold setSourceAliases, setAliases, sourceRegistrations.
  revert table. induction sources as [|src sources IH]; intros table; [reflexivity|].
  cbn [map fold_left]. rewrite IH. f_equal.
  destruct (sourceAlias src) as [a|]; [|reflexivity].
  cbn [setAlias]. destruct (String.eqb a ""); reflexivity.
Qed.

Lemma processLayers_alias fs layers acc acc' :
  processLayers fs layers acc = Some acc' ->
  alias acc' = setAliases (layerRegistrations layers) (alias acc).
Proof.
  revert acc. induction layers as [|layer layers IH]; intros acc; cbn [processLayers].
  - intros [= <-]. reflexivity.
  - unfold processLayer at 1.
    destruct (match entrypoints (layerCommon (options layer)) with
              | Some config => Some (resolveEntrypoints fs config (path layer))
              | None => scanLayerEntrypoints fs (path layer)
              end) as [eps|]; cbn [mbind option_bind]; [|discriminate].
    intros H. apply IH in H. exact H.
Qed.

(** C7, evaluated. The guard of [setAlias] reads [wxt.config.alias[key]]
    and tests its truthiness, which misses two cases of first-wins.
    A first registration under a name every object inherits, here
    [constructor], is taken for a collision and dropped: the table stays
    empty. And a key first bound to the empty path - the source ["/*"],
    whose path without ["/*"] is empty, binds [#] so - is bound anew by
    the next registration under it. *)
Theorem alias_guard_misses :
  firstRegistered "constructor" [("/p/layers/demo", Some "constructor")] =
    Some "/p/layers/demo" /\
  setAliases [("/p/layers/demo", Some "constructor")] ∅ = ∅ /\
  rootSourceRegistrations = [("", Some "#{name}"); ("/p/layers/demo", Some "#")] /\
  firstRegistered "#" rootSourceRegistrations = Some "" /\
  setAliases (firstn 1 rootSourceRegistrations) ∅ !! "#" = Some "" /\
  setAliases rootSourceRegistrations ∅ !! "#" = Some "/p/layers/demo".
Proof. repeat split; vm_compute; reflexivity. Qed.

(** X27. For registrations of non-empty paths under keys that are not
    names every object inherits, starting from a table whose bound paths
    are non-empty: after any sequence of registrations a key already
    bound keeps its path, every other key is bound to the path of the
    first registration attempted under it, and an attempt under a key
    that is bound at that point leaves the table as it was. *)
Theorem alias_first_wins (regs : list Registration) (table : gmap string string) :
  Forall plainRegistration regs ->
  boundPathsNonEmpty table ->
  (forall key,
      setAliases regs table !! key =
        match table !! key with
        | Some path => Some path
        | None => firstRegistered key regs
        end) /\
  (forall earlier reg later key,
      regs = earlier ++ reg :: later ->
      aliasKey reg = Some key ->
      is_Some (setAliases earlier table !! key) ->
      setAliases (earlier ++ [reg]) table = setAliases earlier table).
Proof.
  intros Hregs Hne. split.
  - intros key. apply setAliases_lookup; assumption.
  - intros earlier reg later key -> Hkey [bound Hbound].
    apply Forall_app in Hregs as [Hearlier Hlater].
    apply Forall_cons in Hlater as [[_ Hown] _].
    rewrite setAliases_app. destruct reg as [p a]. cbn.
    change (setAlias p a (setAliases earlier table))
      with (setAlias (fst (p, a)) (snd (p, a)) (setAliases earlier table)).
    rewrite setAlias_key;
      [|exact Hown|apply setAliases_keeps_nonempty; assumption].
    rewrite Hkey, Hbound. reflexivity.
Qed.

Lemma alias_first_wins_witness :
  setAliases sampleRegistrations ∅ !! "#demo" = Some "/p/layers/demo" /\
  setAliases (firstn 3 sampleRegistrations) ∅ = setAliases (firstn 2 sampleRegistrations) ∅.
Proof.
  assert (Hregs : Forall plainRegistration sampleRegistrations)
    by (repeat constructor; first [discriminate|vm_compute; first [reflexivity|exact I]]).
  assert (Hne : boundPathsNonEmpty (∅ : gmap string string))
    by (intros k v Hk; rewrite lookup_empty in Hk; discriminate).
  destruct (alias_first_wins sampleRegistrations ∅ Hregs Hne) as [Hfirst Hnoop].
  split.
  - rewrite Hfirst. reflexivity.
  - apply (Hnoop (firstn 2 sampleRegistrations) ("/p/vendor/demo", Some "#{name}")
             (skipn 3 sampleRegistrations) "#demo"); [reflexivity|reflexivity|].
    exists "/p/layers/demo". vm_compute. reflexivity.
Defined.

(* ------------------------------------------------------------------ *)
(** ** Explicit entrypoints *)
(* ------------------------------------------------------------------ *)

Lemma resolveEntrypoints_in fs config layerPath e :
  In e (resolveEntrypoints fs config layerPath) <->
  exists key path,
    In (key, Some path) config /\ path <> "" /\
    Fs.existsSync fs (Path.resolve (Fs.cwd fs) [layerPath; path]) = true /\
    e = explicitEntry fs layerPath key path.
Proof.
  induction config as [|[key [path|]] config IH]; cbn [resolveEntrypoints].
  - split; [intros []|intros (? & ? & [] & _)].
  - destruct (String.eqb path "") eqn:Hp; cbn [negb].
    + apply String.eqb_eq in Hp. rewrite IH. split.
      * intros (k & q & Hin & Hq & Hex & ->). exists k, q. cbn. auto.
      * intros (k & q & [Heq|Hin] & Hq & Hex & ->); [|exists k, q; auto].
        injection Heq as <- <-. congruence.
    + apply String.eqb_neq in Hp.
      destruct (Fs.existsSync fs (Path.resolve (Fs.cwd fs) [layerPath; path])) eqn:Hex.
      * cbn [In]. rewrite IH. split.
        -- intros [<-|(k & q & Hin & Hq & Hex' & ->)].
           ++ exists key, path. cbn. auto.
           ++ exists k, q. cbn. auto.
        -- intros (k & q & [Heq|Hin] & Hq & Hex' & ->).
           ++ injection Heq as <- <-. left. reflexivity.
           ++ right. exists k, q. auto.
      * rewrite IH. split.
        -- intros (k & q & Hin & Hq & Hex' & ->). exists k, q. cbn. auto.
        -- intros (k & q & [Heq|Hin] & Hq & Hex' & ->); [|exists k, q; auto].
           injection Heq as <- <-. congruence.
  - rewrite IH. split.
    + intros (k & q & Hin & Hq & Hex & ->). exists k, q. cbn. auto.
    + intros (k & q & [Heq|Hin] & Hq & Hex & ->); [discriminate|exists k, q; auto].
Qed.

(** C5, as the code has it. In explicit mode every declared name whose
    relative path is non-empty and resolves to an existing file yields
    the entrypoint named by the part of the declared name before its
    first dot (the whole name when it has none), whose input is the
    resolved path and whose kind the classifier computes from the whole
    declared name. *)
Theorem resolveEntrypoints_explicit (fs : Fs.t) (config : LayerEntrypoints)
    (layerPath key path : string) :
  In (key, Some path) config ->
  path <> "" ->
  Fs.existsSync fs (Path.resolve (Fs.cwd fs) [layerPath; path]) = true ->
  In {| name := beforeQualifier key;
        inputPath := Path.resolve (Fs.cwd fs) [layerPath; path];
        type := determineEntrypointType key
                  (Path.extname (Path.resolve (Fs.cwd fs) [layerPath; path])) |}
     (resolveEntrypoints fs config layerPath).
Proof.
  intros Hin Hp Hex. apply resolveEntrypoints_in.
  exists key, path. repeat split; assumption.
Qed.

Lemma resolveEntrypoints_explicit_witness :
  In {| name := "linkedin";
        inputPath := "/p/layers/demo/content/linkedin.ts";
        type := ContentScript |}
     (resolveEntrypoints sampleFs sampleExplicit "/p/layers/demo").
Proof.
  apply (resolveEntrypoints_explicit sampleFs sampleExplicit "/p/layers/demo"
           "linkedin.content" "content/linkedin.ts").
  - right. left. reflexivity.
  - discriminate.
  - reflexivity.
Defined.

(** C5, as the specification has it, fails: for the declaration
    ['linkedin.content': 'content/linkedin.ts'], whose file exists, the
    one entrypoint produced is named [linkedin] and is a content script -
    not the entrypoint that keeps the declared name and classifies
    [linkedin] alone (an unlisted script). *)
Lemma explicit_name_counterexample :
  Fs.existsSync sampleFs
    (Path.resolve (Fs.cwd sampleFs) ["/p/layers/demo"; "content/linkedin.ts"]) = true /\
  resolveEntrypoints sampleFs [("linkedin.content", Some "content/linkedin.ts")]
    "/p/layers/demo" =
    [{| name := "linkedin";
        inputPath := "/p/layers/demo/content/linkedin.ts";
        type := ContentScript |}] /\
  verbatimEntry sampleFs "/p/layers/demo" "linkedin.content" "content/linkedin.ts" =
    {| name := "linkedin.content";
       inputPath := "/p/layers/demo/content/linkedin.ts";
       type := UnlistedScript |} /\
  ~ In (verbatimEntry sampleFs "/p/layers/demo" "linkedin.content" "content/linkedin.ts")
       (resolveEntrypoints sampleFs [("linkedin.content", Some "content/linkedin.ts")]
          "/p/layers/demo").
Proof.
  repeat split; try reflexivity.
  intros [H|[]]. discriminate H.
Qed.

(* ------------------------------------------------------------------ *)
(** ** Scanned entrypoints *)
(* ------------------------------------------------------------------ *)

Lemma append_nonEmpty a b : b <> "" -> a +:+ b <> "".
Proof. destruct a; cbn; [auto|discriminate]. Qed.

Lemma normalize_nonEmpty p : Path.normalize p <> "".
Proof.
  unfold Path.normalize.
  destruct (String.eqb p ""); [discriminate|].
  destruct (String.eqb (Path.normalizeString p _) "") eqn:Hb.
  - destruct (Path.isAbsolute p); [discriminate|].
    destruct (Str.endsWith "/" p); discriminate.
  - apply String.eqb_neq in Hb.
    destruct (Path.isAbsolute p); [discriminate|].
    destruct (Str.endsWith "/" p); [|exact Hb].
    apply append_nonEmpty. discriminate.
Qed.

Lemma join_nonEmpty parts : Path.join parts <> "".
Proof.
  unfold Path.join.
  destruct (String.eqb _ ""); [discriminate|apply normalize_nonEmpty].
Qed.

Lemma existsSync_isDirectory fs p :
  Fs.existsSync fs p = true ->
  exists isDir, Fs.isDirectory fs p = Some isDir /\
    (isDir = true -> exists names, Fs.readdirSync fs p = Some names).
Proof.
  unfold Fs.existsSync, Fs.isDirectory, Fs.readdirSync.
  destruct (Fs.lookup fs p) as [[|entries]|]; intros H; try discriminate.
  - exists false. split; [reflexivity|discriminate].
  - exists true. split; [reflexivity|eauto].
Qed.

(** The entry [scanEntry] yields is kept exactly when [entryName] is
    non-empty, and then under that name. *)
Lemma scanEntry_name fs dir entry :
  Fs.existsSync fs (Path.join [dir; entry]) = true ->
  exists inputPath,
    scanEntry fs dir entry = Some (entryName fs dir entry, inputPath) /\
    (entryName fs dir entry <> "" -> inputPath <> "").
Proof.
  intros Hex. unfold scanEntry, entryName.
  destruct (existsSync_isDirectory _ _ Hex) as (isDir & -> & Hdir).
  destruct isDir; cbn.
  - destruct (Hdir eq_refl) as (names & ->). cbn.
    destruct (find _ names); eexists; (split; [reflexivity|]).
    + intros _. apply join_nonEmpty.
    + intros H. exact H.
  - eexists. split; [reflexivity|]. intros _. apply join_nonEmpty.
Qed.

Lemma scanEntries_names fs dir entries acc :
  (forall entry, In entry entries ->
     Fs.existsSync fs (Path.join [dir; entry]) = true) ->
  exists entrypoints,
    scanEntries fs dir entries acc = Some entrypoints /\
    map name entrypoints =
      map name acc ++ List.filter nonEmpty (map (entryName fs dir) entries).
Proof.
  revert acc. induction entries as [|entry entries IH]; intros acc Hex.
  - exists acc. cbn. rewrite app_nil_r. auto.
  - destruct (scanEntry_name fs dir entry (Hex entry (or_introl eq_refl)))
      as (inputPath & Hscan & Hpath).
    cbn [scanEntries map List.filter]. rewrite Hscan. cbn [mbind option_bind].
    unfold nonEmpty at 1.
    destruct (String.eqb (entryName fs dir entry) "") eqn:Hn; cbn [negb].
    + rewrite andb_false_r. apply IH. intros e He. apply Hex. right. exact He.
    + apply String.eqb_neq in Hn.
      destruct (String.eqb inputPath "") eqn:Hi.
      * apply String.eqb_eq in Hi. exfalso. exact (Hpath Hn Hi).
      * cbn [negb andb].
        destruct (IH (acc ++ [{| name := entryName fs dir entry;
                                 inputPath := inputPath;
                                 type := determineEntrypointType
                                           (entryName fs dir entry)
                                           (Path.extname inputPath) |}]))
          as (eps & Heps & Hnames).
        { intros e He. apply Hex. right. exact He. }
        exists eps. split; [exact Heps|].
        rewrite Hnames, map_app, <- app_assoc. reflexivity.
Qed.

(** C6, as the code has it. When the entrypoints folder of a layer is a
    directory whose listed entries exist, one call of the scan-mode
    resolver returns a list whose names are, in enumeration order and
    with repetitions, the names the entries stand for - a file name
    without its extension, or the name of a directory that holds an
    index file; entries that stand for the same name all appear. *)
Theorem scanLayerEntrypoints_names (fs : Fs.t) (layerPath : string)
    (entries : list string) :
  Fs.readdirSync fs (Path.join [layerPath; "entrypoints"]) = Some entries ->
  (forall entry, In entry entries ->
     Fs.existsSync fs (Path.join [Path.join [layerPath; "entrypoints"]; entry]) = true) ->
  exists entrypoints,
    scanLayerEntrypoints fs layerPath = Some entrypoints /\
    map name entrypoints =
      List.filter nonEmpty
        (map (entryName fs (Path.join [layerPath; "entrypoints"])) entries).
Proof.
  intros Hdir Hex. unfold scanLayerEntrypoints.
  assert (Hexists : Fs.existsSync fs (Path.join [layerPath; "entrypoints"]) = true).
  { unfold Fs.existsSync. unfold Fs.readdirSync in Hdir.
    destruct (Fs.lookup fs _); [reflexivity|discriminate]. }
  rewrite Hexists, Hdir. cbn [negb mbind option_bind].
  exact (scanEntries_names fs _ entries [] Hex).
Qed.

Lemma scanLayerEntrypoints_names_witness :
  exists entrypoints,
    scanLayerEntrypoints sampleFs "/p/layers/styles" = Some entrypoints /\
    map name entrypoints = ["foo"; "foo"; "bar"].
Proof.
  apply (scanLayerEntrypoints_names sampleFs "/p/layers/styles"
           ["foo.ts"; "foo.css"; "bar"; "empty"]).
  - reflexivity.
  - intros entry [<-|[<-|[<-|[<-|[]]]]]; reflexivity.
Defined.

(** C6, as the specification has it, fails: an entrypoints folder holding
    [foo.ts] and [foo.css] is scanned into two entries named [foo]. *)
Lemma scan_duplicate_names_counterexample :
  option_map (map name) (scanLayerEntrypoints sampleFs "/p/layers/styles") =
    Some ["foo"; "foo"; "bar"] /\
  ~ (forall entrypoints,
       scanLayerEntrypoints sampleFs "/p/layers/styles" = Some entrypoints ->
       NoDup (map name entrypoints)).
Proof.
  split; [reflexivity|].
  intros H. specialize (H _ eq_refl). cbn in H.
  inversion H as [|? ? Hnotin _]. apply Hnotin. constructor.
Qed.

(* ------------------------------------------------------------------ *)
(** ** The [entrypoints:found] hook *)
(* ------------------------------------------------------------------ *)

Lemma addEntrypoints_split all layerBackgrounds entrypointInfos :
  addEntrypoints all layerBackgrounds entrypointInfos =
    (layerBackgrounds ++ layerBackgroundsOf all, entrypointInfos ++ pushedInfos all).
Proof.
  revert layerBackgrounds entrypointInfos.
  induction all as [|e all IH]; intros bgs infos; cbn [addEntrypoints].
  - unfold layerBackgroundsOf, pushedInfos. cbn. rewrite !app_nil_r. reflexivity.
  - unfold layerBackgroundsOf, pushedInfos, isLayerBackground in *.
    cbn [List.filter]. destruct (isBackground (info e)); cbn [negb map];
      rewrite IH, <- app_assoc; reflexivity.
Qed.

Lemma find_pushedInfos all : find isBackground (pushedInfos all) = None.
Proof.
  unfold pushedInfos. induction all as [|e all IH]; [reflexivity|].
  cbn [List.filter]. unfold isLayerBackground at 1.
  destruct (isBackground (info e)) eqn:He; cbn [negb map find]; [exact IH|].
  rewrite He. exact IH.
Qed.

Lemma find_app_none {A} (f : A -> bool) l1 l2 :
  find f l2 = None -> find f (l1 ++ l2) = find f l1.
Proof.
  intros H. induction l1 as [|x l1 IH]; cbn; [exact H|].
  destruct (f x); [reflexivity|exact IH].
Qed.

(** The hook in closed form. *)
Lemma entrypointsFound_unfold all host :
  entrypointsFound all host =
    match find isBackground host, layerBackgroundsOf all with
    | None, _ :: _ =>
        (host ++ pushedInfos all ++ [virtualBackground],
         Some (sortByOrder (layerBackgroundsOf all)))
    | _, _ => (host ++ pushedInfos all, None)
    end.
Proof.
  unfold entrypointsFound. rewrite addEntrypoints_split. cbn [app].
  rewrite find_app_none by apply find_pushedInfos.
  destruct (find isBackground host); [reflexivity|].
  destruct (layerBackgroundsOf all); [reflexivity|].
  rewrite <- app_assoc. reflexivity.
Qed.

(** C1, as the code has it. The hook has no failing outcome and compares
    no names: the list it leaves is the host's list, followed by every
    layer entrypoint that is not a background, in collection order,
    followed by the virtual background when the host has no background
    and some layer has one. Entries with equal names are all kept. *)
Theorem entrypointsFound_appends (all : list LayerEntrypointInfo)
    (host : list EntrypointInfo) :
  fst (entrypointsFound all host) =
    host ++ pushedInfos all ++
      (match find isBackground host, layerBackgroundsOf all with
       | None, _ :: _ => [virtualBackground]
       | _, _ => []
       end).
Proof.
  rewrite entrypointsFound_unfold.
  destruct (find isBackground host), (layerBackgroundsOf all);
    cbn [fst]; rewrite ?app_nil_r; reflexivity.
Qed.

(** C1, as the specification has it, fails: the layers [other] and
    [extra] both hold [entrypoints/foo.ts]; processing them succeeds and
    the hook hands back a list with two entries named [foo]. *)
Lemma entrypoint_collision_counterexample :
  exists collected,
    processLayers sampleFs collidingLayers emptyCollected = Some collected /\
    map (fun e => (name e, inputPath e))
        (fst (entrypointsFound (allEntrypoints collected) [])) =
      [("foo", "/p/layers/other/entrypoints/foo.ts");
       ("foo", "/p/layers/extra/entrypoints/foo.ts");
       ("background", MODULE_NAME)] /\
    ~ NoDup (map name (fst (entrypointsFound (allEntrypoints collected) []))).
Proof.
  eexists. split; [vm_compute; reflexivity|].
  split; [vm_compute; reflexivity|].
  vm_compute. intros H.
  inversion H as [|? ? Hnotin _]. apply Hnotin. constructor.
Qed.

(* ------------------------------------------------------------------ *)
(** ** The virtual background *)
(* ------------------------------------------------------------------ *)









(** C4, evaluated. Two sources each hold a layer [auth] with a
    background. The hook adds the one virtual entrypoint and composes
    both backgrounds, but the generated module imports both under the
    identifier [init_auth], which is derived from the layer name alone:
    the module does not load, whatever the backgrounds export, and no
    handler is executed. *)
Theorem same_named_backgrounds_do_not_load :
  exists collected composed,
    processLayers twinFs twinLayers emptyCollected = Some collected /\
    entrypointsFound (allEntrypoints collected) [] =
      ([virtualBackground], Some composed) /\
    pluginImports composed =
      [("init_auth", "/p/layers/auth/entrypoints/background.ts");
       ("init_auth", "/p/vendor/auth/entrypoints/background.ts")] /\
    forall (V W : Type) (exports : string -> option (@Export V W))
           (undefined : V) (w : W),
      virtualBackgroundMain undefined exports composed w = None.
Proof.
  eexists. eexists. split; [vm_compute; reflexivity|].
  split; [vm_compute; reflexivity|].
  split; [vm_compute; reflexivity|].
  intros V W exports undefined w. reflexivity.
Qed.

(** An export that is not a function with a name stops the run at once:
    no handler is called and the state is untouched. *)
Lemma object_export_stops_run {V W : Type} (undefined : V)
    (rest : list (@Export V W)) (w : W) :
  runAll undefined (objectExport :: rest) w = (None, w).
Proof. reflexivity. Qed.






(** The scenario of section 8: three backgrounds of order 10, 5 and 20,
    each appending its label to what it receives, one of them through a
    promise; the composed run yields the labels in the order 5, 10, 20. *)
Example background_labels_in_order :
  virtualBackgroundMain "" sampleExports
    (sortByOrder [layerBackground "a" 10; layerBackground "b" 5;
                  layerBackground "c" 20]) tt = Some (Some "bac", tt).
Proof. reflexivity. Qed.

(* ------------------------------------------------------------------ *)
(** ** Resolution order *)
(* ------------------------------------------------------------------ *)

Lemma collectEntrypoints_default_order layerPath layerOptions layerEntrypoints :
  order layerOptions = None ->
  Forall (fun e => leOrder e = 100%Z)
    (collectEntrypoints layerPath layerOptions layerEntrypoints).
Proof.
  intros Horder. unfold collectEntrypoints. rewrite Horder.
  induction layerEntrypoints as [|e rest IH]; cbn [map]; constructor;
    [reflexivity|exact IH].
Qed.

(** C8, evaluated. The layer [demo] with options that set no [order]:
    both entrypoints collected for it carry the order 100, where the
    documentation of [LayerOptions.order] promises 50. *)
Lemma unset_order_is_100 :
  option_map (fun collected =>
                map (fun e => (entrypointName e, leOrder e)) (allEntrypoints collected))
    (processLayers sampleFs
       [{| path := "/p/layers/demo"; options := defaultLayerOptions |}]
       emptyCollected) =
    Some [("popup", 100); ("background", 100)]%Z.
Proof. vm_compute. reflexivity. Qed.

(* ------------------------------------------------------------------ *)
(** ** Auto-import directories *)
(* ------------------------------------------------------------------ *)

(** C9, evaluated. The layer [demo], reached through two sources, is
    processed twice and contributes its existing [utils] directory
    twice; the hook tests the list for the absolute path but stores the
    path relative to the source directory, so the test never succeeds
    and the directory is listed twice. *)
Lemma auto_import_listed_twice :
  exists collected,
    processLayers sampleFs
      [{| path := "/p/layers/demo"; options := utilsOptions |};
       {| path := "/p/layers/demo"; options := utilsOptions |}]
      emptyCollected = Some collected /\
    allAutoImportPaths collected = ["/p/layers/demo/utils"; "/p/layers/demo/utils"] /\
    dirs (configResolved "/p" "/p/src" (allAutoImportPaths collected)
            {| disabled := false; dirs := Some ["components"] |}) =
      Some ["components"; "../layers/demo/utils"; "../layers/demo/utils"].
Proof.
  eexists. split; [vm_compute; reflexivity|].
  split; vm_compute; reflexivity.
Qed.

(* ================================================================== *)
(** * Further properties *)
(* ================================================================== *)

(* ------------------------------------------------------------------ *)
(** ** The classifier *)
(* ------------------------------------------------------------------ *)

(** X1. The family of the kind depends on the extension alone: a
    stylesheet extension gives an unlisted style whatever the name,
    [.html] gives one of the page kinds, and any other extension one of
    the script kinds. *)
Theorem kind_family_by_extension (name ext : string) :
  familyOf (determineEntrypointType name ext) =
    if Str.includes ext stylesheetExtensions then StyleKind
    else if String.eqb ext ".html" then PageKind
    else ScriptKind.
Proof.
  unfold determineEntrypointType, stylesheetExtensions.
  destruct (Str.includes ext _); [reflexivity|].
  destruct (String.eqb ext ".html");
    repeat match goal with
           | |- context [if ?b then _ else _] => destruct b
           end; reflexivity.
Qed.

(** X2. An entrypoint is a background exactly when its name is
    [background] and its extension is neither a stylesheet extension nor
    [.html]; no qualified name ([x.background]) is one. *)
Theorem background_kind_exact (name ext : string) :
  determineEntrypointType name ext = Background <->
  name = "background" /\
  Str.includes ext stylesheetExtensions = false /\
  String.eqb ext ".html" = false.
Proof.
  unfold determineEntrypointType, stylesheetExtensions.
  destruct (Str.includes ext _); [split; [discriminate|intros (_ & H & _); discriminate]|].
  destruct (String.eqb ext ".html").
  - split; [|intros (_ & _ & H); discriminate].
    repeat match goal with
           | |- context [if ?b then _ else _] => destruct b
           end; discriminate.
  - destruct (String.eqb name "background") eqn:Hn.
    + apply String.eqb_eq in Hn. split; auto.
    + apply String.eqb_neq in Hn. split; [|intros (H & _); contradiction].
      destruct (_ || _); discriminate.
Qed.

(* ------------------------------------------------------------------ *)
(** ** Explicit entrypoints *)
(* ------------------------------------------------------------------ *)

Lemma split_head_without_separator c s :
  ~ In c (chars (hd "" (Str.split c s))).
Proof.
  induction s as [|a s IH]; cbn; [auto|].
  destruct (Ascii.eqb a c) eqn:Hac; cbn; [auto|].
  apply Ascii.eqb_neq in Hac.
  destruct (Str.split c s) as [|x xs]; cbn in *; intros [H|H]; auto.
Qed.

(** X3. In explicit mode no entrypoint name contains a dot: the
    qualifier of a declared name never reaches the name. *)
Theorem explicit_names_unqualified (fs : Fs.t) (config : LayerEntrypoints)
    (layerPath : string) (e : EntrypointInfo) :
  In e (resolveEntrypoints fs config layerPath) ->
  ~ In "."%char (chars (name e)).
Proof.
  intros He. apply resolveEntrypoints_in in He as (key & path & _ & _ & _ & ->).
  cbn. apply split_head_without_separator.
Qed.

Lemma explicit_names_unqualified_witness :
  ~ In "."%char (chars "linkedin").
Proof.
  apply (explicit_names_unqualified sampleFs sampleExplicit "/p/layers/demo"
           {| name := "linkedin";
              inputPath := "/p/layers/demo/content/linkedin.ts";
              type := ContentScript |}).
  right. left. reflexivity.
Defined.

(** X4. Explicit mode invents nothing: the input of every entrypoint it
    returns exists on disk, and it returns at most one entrypoint per
    declaration (declarations whose file is missing are skipped). *)
Theorem explicit_entries_exist (fs : Fs.t) (config : LayerEntrypoints)
    (layerPath : string) :
  Forall (fun e => Fs.existsSync fs (inputPath e) = true)
    (resolveEntrypoints fs config layerPath) /\
  length (resolveEntrypoints fs config layerPath) <= length config.
Proof.
  induction config as [|[key [path|]] config [IHex IHlen]]; cbn [resolveEntrypoints].
  - split; [constructor|reflexivity].
  - destruct (negb (String.eqb path "")); [|split; [exact IHex|cbn; lia]].
    destruct (Fs.existsSync fs (Path.resolve (Fs.cwd fs) [layerPath; path])) eqn:Hex.
    + split; [constructor; [exact Hex|exact IHex]|cbn; lia].
    + split; [exact IHex|cbn; lia].
  - split; [exact IHex|cbn; lia].
Qed.

(* ------------------------------------------------------------------ *)
(** ** Scanned entrypoints *)
(* ------------------------------------------------------------------ *)

Lemma scanEntries_invariant (P : EntrypointInfo -> Prop) fs dir :
  (forall entry n p, scanEntry fs dir entry = Some (n, p) ->
     n <> "" -> p <> "" ->
     P {| name := n; inputPath := p;
          type := determineEntrypointType n (Path.extname p) |}) ->
  forall entries acc eps,
    Forall P acc ->
    scanEntries fs dir entries acc = Some eps ->
    Forall P eps.
Proof.
  intros Hstep entries. induction entries as [|entry entries IH]; intros acc eps Hacc.
  - cbn. intros [= <-]. exact Hacc.
  - cbn [scanEntries].
    destruct (scanEntry fs dir entry) as [[n p]|] eqn:Hscan;
      cbn [mbind option_bind]; [|discriminate].
    destruct (String.eqb p "") eqn:Hp; cbn [negb andb]; [apply IH, Hacc|].
    destruct (String.eqb n "") eqn:Hn; cbn [negb]; [apply IH, Hacc|].
    apply String.eqb_neq in Hp, Hn. apply IH.
    apply Forall_app. split; [exact Hacc|].
    constructor; [|constructor]. exact (Hstep entry n p Hscan Hn Hp).
Qed.

(** X5. Every entrypoint a scan returns has a non-empty name and input
    path, and its kind is the classification of that name with the
    extension of that input path. *)
Theorem scanned_entries_classified (fs : Fs.t) (layerPath : string)
    (entrypoints : list EntrypointInfo) :
  scanLayerEntrypoints fs layerPath = Some entrypoints ->
  Forall (fun e =>
            name e <> "" /\ inputPath e <> "" /\
            type e = determineEntrypointType (name e) (Path.extname (inputPath e)))
    entrypoints.
Proof.
  unfold scanLayerEntrypoints.
  destruct (negb (Fs.existsSync fs _)); [intros [= <-]; constructor|].
  destruct (Fs.readdirSync fs _) as [entries|]; cbn [mbind option_bind]; [|discriminate].
  apply scanEntries_invariant; [|constructor].
  intros entry n p _ Hn Hp. cbn. auto.
Qed.

Lemma scanned_entries_classified_witness :
  Forall (fun e =>
            name e <> "" /\ inputPath e <> "" /\
            type e = determineEntrypointType (name e) (Path.extname (inputPath e)))
    [{| name := "popup"; inputPath := "/p/layers/demo/entrypoints/popup.html";
        type := Popup |};
     {| name := "background"; inputPath := "/p/layers/demo/entrypoints/background.ts";
        type := Background |}].
Proof.
  apply (scanned_entries_classified sampleFs "/p/layers/demo"). reflexivity.
Defined.

Lemma split_without_separator c s :
  ~ In c (chars s) -> Str.split c s = [s].
Proof.
  induction s as [|a s IH]; cbn; [reflexivity|].
  intros Hnot. destruct (Ascii.eqb a c) eqn:Hac.
  - apply Ascii.eqb_eq in Hac. exfalso. apply Hnot. left. exact Hac.
  - rewrite IH by (intros H; apply Hnot; right; exact H). reflexivity.
Qed.

Lemma length_drop n s :
  String.length (Str.drop n s) = String.length s - n.
Proof.
  revert s. induction n as [|n IH]; intros [|a s]; cbn; try reflexivity.
  apply IH.
Qed.

Lemma take_nonEmpty n s : 0 < n -> s <> "" -> Str.take n s <> "".
Proof. destruct n, s; cbn; intros; try lia; try congruence. Qed.

Lemma length_zero_empty s : String.length s = 0 -> s = "".
Proof. destruct s; [reflexivity|discriminate]. Qed.

Lemma lastSegment_plain entry : plainName entry -> Path.lastSegment entry = entry.
Proof.
  intros [Hne Hsep]. unfold Path.lastSegment.
  rewrite split_without_separator by exact Hsep. cbn.
  destruct (String.eqb entry "") eqn:He; [|reflexivity].
  apply String.eqb_eq in He. contradiction.
Qed.

(** The name of a listed file is never empty. *)
Lemma basenameExt_plain entry :
  plainName entry -> Path.basenameExt entry (Path.extname entry) <> "".
Proof.
  intros Hplain. pose proof Hplain as [Hne _].
  unfold Path.basenameExt. rewrite (lastSegment_plain entry Hplain).
  destruct (String.eqb (Path.extname entry) "" || _); [exact Hne|].
  assert (Hshorter : Path.extname entry = "" \/
            String.length (Path.extname entry) < String.length entry).
  { unfold Path.extname. rewrite (lastSegment_plain entry Hplain).
    destruct (Str.lastIndexOf "." entry) as [[|i]|]; auto.
    destruct (String.eqb entry ".."); auto.
    right. rewrite length_drop.
    destruct entry; [contradiction|cbn; lia]. }
  destruct (String.eqb (Path.extname entry) entry) eqn:Heq.
  - apply String.eqb_eq in Heq. destruct Hshorter as [H|H].
    + congruence.
    + rewrite Heq in H. lia.
  - destruct (_ && _); [|exact Hne].
    apply take_nonEmpty; [|exact Hne].
    destruct Hshorter as [->|H]; [|lia].
    destruct entry; [contradiction|cbn; lia].
Qed.

Lemma scanEntries_grows fs dir entries acc eps e :
  scanEntries fs dir entries acc = Some eps -> In e acc -> In e eps.
Proof.
  revert acc. induction entries as [|entry entries IH]; intros acc; cbn [scanEntries].
  - intros [= <-]. auto.
  - destruct (scanEntry fs dir entry) as [[n p]|]; cbn [mbind option_bind]; [|discriminate].
    destruct (_ && _); intros H Hin; apply (IH _ H); [apply in_or_app; left|]; exact Hin.
Qed.

Lemma scanEntries_keeps fs dir entries acc eps entry n p :
  scanEntries fs dir entries acc = Some eps ->
  In entry entries ->
  scanEntry fs dir entry = Some (n, p) ->
  n <> "" -> p <> "" ->
  In {| name := n; inputPath := p;
        type := determineEntrypointType n (Path.extname p) |} eps.
Proof.
  intros Hscan Hin Hentry Hn Hp. revert acc Hscan.
  induction entries as [|entry' entries IH]; intros acc; [destruct Hin|].
  cbn [scanEntries]. destruct Hin as [->|Hin].
  - rewrite Hentry. cbn [mbind option_bind].
    apply String.eqb_neq in Hn, Hp. rewrite Hn, Hp. cbn [negb andb].
    intros H. apply (scanEntries_grows _ _ _ _ _ _ H).
    apply in_or_app. right. left. reflexivity.
  - destruct (scanEntry fs dir entry') as [[n' p']|]; cbn [mbind option_bind];
      [|discriminate].
    destruct (_ && _); apply IH; exact Hin.
Qed.

(** X6. A scan keeps every regular file of the entrypoints folder,
    whatever its extension: when the scan succeeds, each listed file
    appears as an entrypoint named by the file name without its
    extension. *)
Theorem scan_keeps_every_file (fs : Fs.t) (layerPath : string)
    (entries : list string) (entrypoints : list EntrypointInfo) (entry : string) :
  Fs.readdirSync fs (Path.join [layerPath; "entrypoints"]) = Some entries ->
  scanLayerEntrypoints fs layerPath = Some entrypoints ->
  In entry entries ->
  plainName entry ->
  Fs.isDirectory fs (Path.join [Path.join [layerPath; "entrypoints"]; entry]) = Some false ->
  In {| name := Path.basenameExt entry (Path.extname entry);
        inputPath := Path.join [Path.join [layerPath; "entrypoints"]; entry];
        type := determineEntrypointType
                  (Path.basenameExt entry (Path.extname entry))
                  (Path.extname (Path.join [Path.join [layerPath; "entrypoints"]; entry])) |}
     entrypoints.
Proof.
  intros Hdir Hscan Hin Hplain Hfile. unfold scanLayerEntrypoints in Hscan.
  assert (Hexists : Fs.existsSync fs (Path.join [layerPath; "entrypoints"]) = true).
  { unfold Fs.existsSync. unfold Fs.readdirSync in Hdir.
    destruct (Fs.lookup fs _); [reflexivity|discriminate]. }
  rewrite Hexists, Hdir in Hscan. cbn [negb mbind option_bind] in Hscan.
  apply (scanEntries_keeps _ _ _ _ _ entry _ _ Hscan Hin).
  - unfold scanEntry. rewrite Hfile. reflexivity.
  - apply basenameExt_plain, Hplain.
  - apply join_nonEmpty.
Qed.

Lemma scan_keeps_every_file_witness :
  In {| name := ".gitkeep";
        inputPath := "/p/layers/misc/entrypoints/.gitkeep";
        type := UnlistedScript |}
     [{| name := ".gitkeep"; inputPath := "/p/layers/misc/entrypoints/.gitkeep";
         type := UnlistedScript |};
      {| name := "notes"; inputPath := "/p/layers/misc/entrypoints/notes.md";
         type := UnlistedScript |};
      {| name := "x.content"; inputPath := "/p/layers/misc/entrypoints/x.content.ts";
         type := ContentScript |}].
Proof.
  apply (scan_keeps_every_file oddFs "/p/layers/misc"
           [".gitkeep"; "notes.md"; "x.content.ts"] _ ".gitkeep").
  - reflexivity.
  - reflexivity.
  - left. reflexivity.
  - split; [discriminate|].
    intros H. cbn in H. repeat (destruct H as [H|H]; [discriminate H|]). exact H.
  - reflexivity.
Defined.

(** X7. A layer without an entrypoints folder scans to the empty list;
    a layer whose [entrypoints] is a regular file makes the scan throw. *)
Theorem scan_without_folder (fs : Fs.t) (layerPath : string) :
  (Fs.lookup fs (Path.join [layerPath; "entrypoints"]) = None ->
   scanLayerEntrypoints fs layerPath = Some []) /\
  (Fs.lookup fs (Path.join [layerPath; "entrypoints"]) = Some Fs.File ->
   scanLayerEntrypoints fs layerPath = None).
Proof.
  unfold scanLayerEntrypoints, Fs.existsSync, Fs.readdirSync.
  split; intros ->; reflexivity.
Qed.

Lemma scan_without_folder_witness :
  scanLayerEntrypoints oddFs "/p/layers/bare" = Some [] /\
  scanLayerEntrypoints oddFs "/p/layers/flat" = None.
Proof.
  split.
  - apply (proj1 (scan_without_folder oddFs "/p/layers/bare")). reflexivity.
  - apply (proj2 (scan_without_folder oddFs "/p/layers/flat")). reflexivity.
Defined.

(* ------------------------------------------------------------------ *)
(** ** Processing the layers *)
(* ------------------------------------------------------------------ *)

Lemma collectEntrypoints_info layerPath layerOptions eps :
  map info (collectEntrypoints layerPath layerOptions eps) = eps.
Proof.
  unfold collectEntrypoints. rewrite map_map. cbn. apply map_id.
Qed.

Lemma processLayer_unfold fs acc layer :
  processLayer fs acc layer =
    match layerEntrypointsOf fs layer with
    | Some eps =>
        Some {| alias := setAlias (path layer) (layerAlias (layerCommon (options layer)))
                           (alias acc);
                allEntrypoints :=
                  allEntrypoints acc ++ collectEntrypoints (path layer) (options layer) eps;
                allAutoImportPaths :=
                  allAutoImportPaths acc ++
                  resolveLayerAutoImportDirs fs (path layer)
                    (default [] (autoImports (layerCommon (options layer)))) |}
    | None => None
    end.
Proof.
  unfold processLayer, layerEntrypointsOf.
  destruct (entrypoints (layerCommon (options layer)));
    [|destruct (scanLayerEntrypoints fs (path layer))];
    cbn [mbind option_bind]; try reflexivity;
    destruct (autoImports (layerCommon (options layer))); reflexivity.
Qed.

(** X8. The loop over the layers succeeds exactly when the entrypoints
    of every layer can be obtained, and then the entrypoints it has
    collected are those of the layers, concatenated in layer order after
    the ones collected before. *)
Theorem processLayers_collects (fs : Fs.t) (layers : list ResolvedLayer)
    (acc : Collected) :
  match processLayers fs layers acc, mapM (layerEntrypointsOf fs) layers with
  | Some acc', Some perLayer =>
      map info (allEntrypoints acc') =
        map info (allEntrypoints acc) ++ concat perLayer
  | None, None => True
  | _, _ => False
  end.
Proof.
  revert acc. induction layers as [|layer layers IH]; intros acc.
  - cbn. rewrite app_nil_r. reflexivity.
  - cbn [processLayers mapM]. rewrite processLayer_unfold.
    destruct (layerEntrypointsOf fs layer) as [eps|]; cbn [mbind option_bind]; [|exact I].
    match goal with
    | |- context [processLayers fs layers ?a] => specialize (IH a)
    end.
    destruct (processLayers fs layers _) as [acc'|],
             (mapM (layerEntrypointsOf fs) layers) as [perLayer|];
      cbn in *; try exact IH.
    rewrite IH, map_app, collectEntrypoints_info, <- app_assoc. reflexivity.
Qed.

(** X9. Layers that all declare their entrypoints explicitly are always
    processed to the end: no folder is scanned, so nothing can throw -
    not even when [entrypoints] is a regular file or the map is empty. *)
Theorem explicit_layers_never_throw (fs : Fs.t) (layers : list ResolvedLayer)
    (acc : Collected) :
  Forall (fun layer => entrypoints (layerCommon (options layer)) <> None) layers ->
  exists acc', processLayers fs layers acc = Some acc'.
Proof.
  intros Hall. revert acc.
  induction Hall as [|layer layers Hlayer _ IH]; intros acc; [eexists; reflexivity|].
  cbn [processLayers]. rewrite processLayer_unfold. unfold layerEntrypointsOf.
  destruct (entrypoints (layerCommon (options layer))); [|contradiction].
  cbn [mbind option_bind]. apply IH.
Qed.

Lemma explicit_layers_never_throw_witness :
  exists acc', processLayers oddFs [explicitLayer] emptyCollected = Some acc'.
Proof.
  apply (explicit_layers_never_throw oddFs [explicitLayer] emptyCollected).
  constructor; [discriminate|constructor].
Defined.

Lemma autoImportDirs_exist fs layerPath dirs :
  Forall (fun p => Fs.existsSync fs p = true)
    (resolveLayerAutoImportDirs fs layerPath dirs).
Proof.
  unfold resolveLayerAutoImportDirs.
  induction (map (fun dir => Path.join [layerPath; dir]) dirs) as [|p ps IH];
    cbn [List.filter]; [constructor|].
  destruct (Fs.existsSync fs p) eqn:Hp; [constructor; assumption|exact IH].
Qed.

(** X10. Every path collected for auto-import exists on disk:
    processing layers keeps that property of the collected paths, the
    names in [autoImports] that a layer does not have being skipped.
    Existence is all that is tested: a regular file of that name is
    collected as well. *)
Theorem collected_auto_imports_exist (fs : Fs.t) (layers : list ResolvedLayer)
    (acc acc' : Collected) :
  processLayers fs layers acc = Some acc' ->
  Forall (fun p => Fs.existsSync fs p = true) (allAutoImportPaths acc) ->
  Forall (fun p => Fs.existsSync fs p = true) (allAutoImportPaths acc').
Proof.
  revert acc. induction layers as [|layer layers IH]; intros acc; cbn [processLayers].
  - intros [= <-]. auto.
  - rewrite processLayer_unfold.
    destruct (layerEntrypointsOf fs layer); cbn [mbind option_bind]; [|discriminate].
    intros Hrest Hacc. apply (IH _ Hrest). cbn [allAutoImportPaths].
    apply Forall_app. split; [exact Hacc|apply autoImportDirs_exist].
Qed.

Lemma collected_auto_imports_exist_witness :
  Forall (fun p => Fs.existsSync sampleFs p = true) ["/p/layers/demo/utils"].
Proof.
  apply (collected_auto_imports_exist sampleFs [demoLayer] emptyCollected
           {| alias := <["#demo" := "/p/layers/demo"]> ∅;
              allEntrypoints :=
                collectEntrypoints "/p/layers/demo" (options demoLayer)
                  [{| name := "popup";
                      inputPath := "/p/layers/demo/entrypoints/popup.html";
                      type := Popup |};
                   {| name := "background";
                      inputPath := "/p/layers/demo/entrypoints/background.ts";
                      type := Background |}];
              allAutoImportPaths := ["/p/layers/demo/utils"] |}).
  - vm_compute. reflexivity.
  - constructor.
Defined.

(** X11. [setup] attempts its alias registrations in a fixed order:
    first one per source, in the order of the sources and with the
    first ["/*"] of the source path removed, then one per layer, in layer
    order. When it runs to the end, the alias table is the result of that
    one sequence of registrations. *)
Theorem setup_alias_order (fs : Fs.t) (rootDir : string) (sources : SourcesInput)
    (resolvedLayers : list ResolvedLayer) (table : gmap string string)
    (collected : Collected) :
  resolveSources (Fs.cwd fs) rootDir sources <> [] ->
  setup fs rootDir sources resolvedLayers table = Some collected ->
  alias collected =
    setAliases
      (sourceRegistrations (resolveSources (Fs.cwd fs) rootDir sources) ++
       layerRegistrations resolvedLayers)
      table.
Proof.
  intros Hsources. unfold setup.
  destruct (resolveSources (Fs.cwd fs) rootDir sources) as [|src srcs] eqn:Hs;
    [contradiction|].
  rewrite setAliases_app, <- setSourceAliases_registrations.
  destruct resolvedLayers as [|layer layers].
  - intros [= <-]. reflexivity.
  - intros H. apply processLayers_alias in H. exact H.
Qed.

Lemma setup_alias_order_witness :
  exists collected,
    setup sampleFs "/p" None [demoLayer] ∅ = Some collected /\
    alias collected = <["#demo" := "/p/layers/demo"]> (<["#layers" := "/p/layers"]> ∅).
Proof.
  destruct (setup sampleFs "/p" None [demoLayer] ∅) as [collected|] eqn:Hsetup;
    [|vm_compute in Hsetup; discriminate Hsetup].
  exists collected. split; [reflexivity|].
  rewrite (setup_alias_order sampleFs "/p" None [demoLayer] ∅ collected);
    [|discriminate|exact Hsetup].
  vm_compute. reflexivity.
Defined.

(* ------------------------------------------------------------------ *)
(** ** [shallowMerge] *)
(* ------------------------------------------------------------------ *)

Lemma mergeEntry_lookup target key value :
  mergeEntry target key value !! key = mergedAt (target !! key) key value.
Proof.
  unfold mergeEntry, mergedAt, hasOwn, getProp.
  destruct (target !! key) as [cur|] eqn:Hk; cbn [negb default].
  - rewrite andb_false_r, lookup_insert_eq. reflexivity.
  - rewrite andb_true_r. destruct (String.eqb key "__proto__");
      [exact Hk|apply lookup_insert_eq].
Qed.

Lemma mergeEntry_lookup_ne target key value other :
  key <> other -> mergeEntry target key value !! other = target !! other.
Proof.
  intros Hne. unfold mergeEntry.
  destruct (_ && _); [reflexivity|apply lookup_insert_ne, Hne].
Qed.

Lemma shallowMerge_fold target source :
  shallowMerge target source = fold_left mergeStep (map_to_list source) target.
Proof.
  unfold shallowMerge. generalize (map_to_list source). intros entries.
  revert target. induction entries as [|[k v] entries IH]; intros target;
    [reflexivity|apply IH].
Qed.

Lemma fold_mergeStep_lookup (entries : list (string * jsval))
    (target : gmap string jsval) (key : string) :
  NoDup (entries.*1) ->
  fold_left mergeStep entries target !! key =
    match (list_to_map entries : gmap string jsval) !! key with
    | Some value => mergedAt (target !! key) key value
    | None => target !! key
    end.
Proof.
  revert target. induction entries as [|[k v] entries IH]; intros target Hnd.
  - cbn. rewrite lookup_empty. reflexivity.
  - rewrite fmap_cons in Hnd. apply NoDup_cons in Hnd as [Hk Hnd].
    change (fold_left mergeStep ((k, v) :: entries) target)
      with (fold_left mergeStep entries (mergeStep target (k, v))).
    change (list_to_map ((k, v) :: entries) : gmap string jsval)
      with (<[k := v]> (list_to_map entries : gmap string jsval)).
    rewrite IH by exact Hnd. unfold mergeStep. cbn [fst snd].
    destruct (decide (k = key)) as [->|Hne].
    + rewrite (not_elem_of_list_to_map_1 entries key Hk).
      rewrite lookup_insert_eq. apply mergeEntry_lookup.
    + rewrite (mergeEntry_lookup_ne _ _ _ _ Hne), lookup_insert_ne by exact Hne.
      reflexivity.
Qed.

(** What [shallowMerge] leaves under a key. *)
Lemma shallowMerge_lookup target source key :
  shallowMerge target source !! key =
    match source !! key with
    | Some value => mergedAt (target !! key) key value
    | None => target !! key
    end.
Proof.
  rewrite shallowMerge_fold.
  rewrite fold_mergeStep_lookup by apply NoDup_fst_map_to_list.
  rewrite list_to_map_to_list. reflexivity.
Qed.

(** X12. [shallowMerge] never removes a property: the own properties of
    the merged target are those of the target together with those of
    the source - except for a source property named [__proto__], which
    is added only when the target already has an own property of that
    name; merging an empty source changes nothing. *)
Theorem shallowMerge_keys (target source : gmap string jsval) :
  dom (shallowMerge target source) = dom target ∪ (dom source ∖ {["__proto__"]}) /\
  shallowMerge target ∅ = target.
Proof.
  split.
  - apply set_eq. intros key.
    rewrite elem_of_union, elem_of_difference, elem_of_singleton, !elem_of_dom.
    rewrite shallowMerge_lookup. unfold mergedAt.
    destruct (source !! key) as [v|], (target !! key) as [cur|].
    + split; eauto.
    + destruct (String.eqb key "__proto__") eqn:Hp.
      * apply String.eqb_eq in Hp. split.
        -- intros [x Hx]. discriminate.
        -- intros [[x Hx]|[_ Hne]]; [discriminate|contradiction].
      * apply String.eqb_neq in Hp. split; eauto.
    + split; eauto.
    + split.
      * intros [x Hx]. discriminate.
      * intros [[x Hx]|[[x Hx] _]]; discriminate.
  - apply map_eq. intros key. rewrite shallowMerge_lookup, lookup_empty. reflexivity.
Qed.

(** X13. Merging is not idempotent on arrays: merging the same source
    twice appends its items twice. *)
Theorem shallowMerge_twice_appends (target source : gmap string jsval)
    (key : string) (old new : list jsval) :
  target !! key = Some (JArr old) ->
  source !! key = Some (JArr new) ->
  shallowMerge (shallowMerge target source) source !! key =
    Some (JArr (old ++ new ++ new)).
Proof.
  intros Ht Hs. rewrite shallowMerge_lookup, Hs.
  rewrite shallowMerge_lookup, Hs, Ht.
  cbn. rewrite <- app_assoc. reflexivity.
Qed.

Lemma shallowMerge_twice_appends_witness :
  shallowMerge (shallowMerge sampleModuleOptions sampleLayerOptions) sampleLayerOptions
    !! "autoImports" = Some (JArr [JStr "utils"; JStr "hooks"; JStr "hooks"]).
Proof.
  apply (shallowMerge_twice_appends sampleModuleOptions sampleLayerOptions
           "autoImports" [JStr "utils"] [JStr "hooks"]); reflexivity.
Defined.

(** X14. The merge is one level deep: when target and source both hold
    an object under a key, the result holds under each property the
    source's value when the source has that property, whole and
    unmerged, and the target's value otherwise. *)
Theorem shallowMerge_one_level (target source : gmap string jsval)
    (key : string) (old new : gmap string jsval) :
  target !! key = Some (JObj old) ->
  source !! key = Some (JObj new) ->
  exists merged,
    shallowMerge target source !! key = Some (JObj merged) /\
    forall prop,
      merged !! prop =
        match new !! prop with
        | Some value => Some value
        | None => old !! prop
        end.
Proof.
  intros Ht Hs. exists (new ∪ old). split.
  - rewrite shallowMerge_lookup, Hs, Ht. reflexivity.
  - intros prop. rewrite lookup_union.
    destruct (new !! prop), (old !! prop); reflexivity.
Qed.

Lemma shallowMerge_one_level_witness :
  exists merged,
    shallowMerge nestedTarget nestedSource !! "entrypoints" = Some (JObj merged) /\
    merged !! "extra" = Some (JArr [JStr "y"]) /\
    merged !! "popup" = Some (JStr "a.html").
Proof.
  assert (Ht : nestedTarget !! "entrypoints" =
               Some (JObj (<["popup" := JStr "a.html"]>
                             (<["extra" := JArr [JStr "x"]]> ∅))))
    by (vm_compute; reflexivity).
  assert (Hs : nestedSource !! "entrypoints" =
               Some (JObj (<["extra" := JArr [JStr "y"]]> ∅)))
    by (vm_compute; reflexivity).
  destruct (shallowMerge_one_level nestedTarget nestedSource "entrypoints" _ _ Ht Hs)
    as (merged & Hmerged & Hprops).
  exists merged. split; [exact Hmerged|].
  split; rewrite Hprops; vm_compute; reflexivity.
Defined.

(* ------------------------------------------------------------------ *)
(** ** Alias templates and handler names *)
(* ------------------------------------------------------------------ *)

Lemma replaceAllFrom_absent pat repl before s :
  occurs pat s = false ->
  Str.replaceAllFrom pat repl before 0 s = s.
Proof.
  revert before. induction s as [|a s IH]; intros before; [reflexivity|].
  cbn [occurs Str.replaceAllFrom]. intros H.
  apply orb_false_iff in H as [Hhere Hlater].
  rewrite Hhere, IH by exact Hlater. reflexivity.
Qed.

Lemma expandReplacement_plain repl before matched after :
  hasChar "$" repl = false ->
  Str.expandReplacement repl before matched after = repl.
Proof.
  induction repl as [|a repl IH]; [reflexivity|].
  cbn [hasChar Str.expandReplacement]. intros H.
  apply orb_false_iff in H as [Ha Hrest].
  rewrite Ha, IH by exact Hrest. reflexivity.
Qed.

(** X15. A template that does not contain [{name}] is used as it is:
    such an alias or public prefix is the same for every layer. *)
Theorem interpolate_literal (template layerName : string) :
  occurs "{name}" template = false ->
  interpolateLayerName template layerName = template.
Proof.
  intros H. unfold interpolateLayerName, Str.replaceAll.
  apply replaceAllFrom_absent, H.
Qed.

Lemma interpolate_literal_witness :
  interpolateLayerName "@tracking" "analytics" = "@tracking".
Proof. apply (interpolate_literal "@tracking" "analytics"). reflexivity. Defined.

Lemma replaceAllFrom_placeholder layerName before prefix suffix :
  hasChar "{" prefix = false ->
  occurs "{name}" suffix = false ->
  hasChar "$" layerName = false ->
  Str.replaceAllFrom "{name}" layerName before 0 (prefix +:+ "{name}" +:+ suffix) =
    prefix +:+ layerName +:+ suffix.
Proof.
  intros Hprefix Hsuffix Hname. revert before Hprefix.
  induction prefix as [|a prefix IH]; intros before Hprefix.
  - change ("" +:+ "{name}" +:+ suffix)
      with (String "{" (String "n" (String "a" (String "m" (String "e"
              (String "}" suffix)))))).
    change ("" +:+ layerName +:+ suffix) with (layerName +:+ suffix).
    cbn [Str.replaceAllFrom Str.startsWith Str.drop String.length Ascii.eqb
         Bool.eqb andb Nat.sub].
    rewrite expandReplacement_plain by exact Hname. f_equal.
    destruct suffix as [|b suffix]; [reflexivity|].
    rewrite (replaceAllFrom_absent _ _ _ (String b suffix) Hsuffix). reflexivity.
  - cbn [hasChar] in Hprefix. apply orb_false_iff in Hprefix as [Ha Hrest].
    change ((String a prefix) +:+ "{name}" +:+ suffix)
      with (String a (prefix +:+ "{name}" +:+ suffix)).
    cbn [Str.replaceAllFrom Str.startsWith].
    rewrite Ascii.eqb_sym, Ha. cbn [andb].
    rewrite IH by exact Hrest. reflexivity.
Qed.

(** X16. A template with one [{name}] placeholder, and no other brace
    before it, yields the text before the placeholder, the layer name
    and the text after it - provided the name holds no [$], which the
    replacement would otherwise interpret. With the default ["#{name}"]
    the alias of a layer is [#] followed by its name. *)
Theorem interpolate_placeholder (prefix suffix layerName : string) :
  hasChar "{" prefix = false ->
  occurs "{name}" suffix = false ->
  hasChar "$" layerName = false ->
  interpolateLayerName (prefix +:+ "{name}" +:+ suffix) layerName =
    prefix +:+ layerName +:+ suffix.
Proof.
  intros. unfold interpolateLayerName, Str.replaceAll.
  apply replaceAllFrom_placeholder; assumption.
Qed.

Lemma interpolate_placeholder_witness :
  interpolateLayerName "#{name}" "demo" = "#demo".
Proof.
  apply (interpolate_placeholder "#" "" "demo"); reflexivity.
Defined.

Lemma squashNonWord_word inRun s :
  Forall (fun c => Str.isWordChar c = true) (chars (Str.squashNonWord inRun s)).
Proof.
  revert inRun. induction s as [|a s IH]; intros inRun; cbn; [constructor|].
  destruct (Str.isWordChar a) eqn:Ha; cbn.
  - constructor; [exact Ha|apply IH].
  - destruct inRun; cbn; [apply IH|].
    constructor; [reflexivity|apply IH].
Qed.

(** X17. The identifier under which the generated module imports a
    layer background is [init_] followed by word characters only
    (letters, digits, underscore), whatever the name of the layer. *)
Theorem handlerName_identifier (entrypoint : LayerEntrypointInfo) :
  exists label,
    handlerName entrypoint = "init_" +:+ label /\
    Forall (fun c => Str.isWordChar c = true) (chars label).
Proof.
  exists (Str.squashNonWord false (layerName entrypoint)).
  split; [reflexivity|apply squashNonWord_word].
Qed.

(* ------------------------------------------------------------------ *)
(** ** Composition of the layer backgrounds *)
(* ------------------------------------------------------------------ *)

(** X18. Running a list of handlers is running its first part and, when
    no handler of that part failed, the rest from the result and state
    the first part left; after a failure no later handler is called and
    the state stays as the failing handler left it. *)
Theorem runFrom_app {V W : Type} (first rest : list (@Handler V W)) (v : V) (w : W) :
  runFrom (first ++ rest) v w =
    match runFrom first v w with
    | (Some v', w') => runFrom rest v' w'
    | (None, w') => (None, w')
    end.
Proof.
  revert v w. induction first as [|h first IH]; intros v w; [reflexivity|].
  cbn [app runFrom]. destruct (h v w) as [[r|r|] w']; [apply IH|apply IH|reflexivity].
Qed.

(** X19. Layer backgrounds that are discovered in ascending [order] - in
    particular backgrounds that all carry the same order - are composed
    in discovery order. *)
Theorem sorted_backgrounds_unchanged (l : list LayerEntrypointInfo) :
  Sorted orderLe l -> sortByOrder l = l.
Proof.
  induction 1 as [|x l Hsorted IH Hhd]; [reflexivity|].
  cbn [sortByOrder fold_right]. fold (sortByOrder l). rewrite IH.
  destruct Hhd as [|y l' Hxy]; [reflexivity|].
  cbn [insertByOrder]. unfold orderLe in Hxy.
  destruct (leOrder y <? leOrder x)%Z eqn:Hlt; [lia|reflexivity].
Qed.

Lemma sorted_backgrounds_unchanged_witness :
  sortByOrder [layerBackground "a" 100; layerBackground "b" 100; layerBackground "c" 100] =
    [layerBackground "a" 100; layerBackground "b" 100; layerBackground "c" 100].
Proof.
  apply (sorted_backgrounds_unchanged
           [layerBackground "a" 100; layerBackground "b" 100; layerBackground "c" 100]).
  repeat constructor; unfold orderLe; cbn; lia.
Defined.

(* ------------------------------------------------------------------ *)
(** ** The [entrypoints:found] hook *)
(* ------------------------------------------------------------------ *)

Lemma filter_pushedInfos all : List.filter isBackground (pushedInfos all) = [].
Proof.
  unfold pushedInfos. induction all as [|e all IH]; [reflexivity|].
  cbn [List.filter]. unfold isLayerBackground at 1.
  destruct (isBackground (info e)) eqn:He; cbn [negb map List.filter]; [exact IH|].
  rewrite He. exact IH.
Qed.

(** X20. The hook adds at most one background to the host's list: the
    layers' own background entrypoints are never pushed, and the virtual
    one is added only when the host has none and some layer has one. *)
Theorem hook_background_count (all : list LayerEntrypointInfo)
    (host : list EntrypointInfo) :
  length (List.filter isBackground (fst (entrypointsFound all host))) =
    length (List.filter isBackground host) +
    match find isBackground host, layerBackgroundsOf all with
    | None, _ :: _ => 1
    | _, _ => 0
    end.
Proof.
  rewrite entrypointsFound_unfold.
  destruct (find isBackground host), (layerBackgroundsOf all); cbn [fst];
    rewrite ?List.filter_app, filter_pushedInfos, ?app_nil_l, ?app_nil_r;
    cbn; rewrite ?length_app; cbn; lia.
Qed.

(** X21. When the host's list already holds a background, the hook only
    appends the layer entrypoints that are not backgrounds: no virtual
    entrypoint is created and no layer background is composed, however
    many the layers supply. *)
Theorem host_background_wins (all : list LayerEntrypointInfo)
    (host : list EntrypointInfo) (existing : EntrypointInfo) :
  find isBackground host = Some existing ->
  entrypointsFound all host = (host ++ pushedInfos all, None).
Proof.
  intros Hhost. rewrite entrypointsFound_unfold, Hhost. reflexivity.
Qed.

Lemma host_background_wins_witness :
  entrypointsFound sampleCollected hostWithBackground =
    (hostWithBackground ++
       [{| name := "popup"; inputPath := "/p/layers/a/entrypoints/popup.html";
           type := Popup |}], None).
Proof.
  apply (host_background_wins sampleCollected hostWithBackground
           {| name := "background"; inputPath := "/p/src/entrypoints/background.ts";
              type := Background |}).
  reflexivity.
Defined.

(* ------------------------------------------------------------------ *)
(** ** The [config:resolved] hook *)
(* ------------------------------------------------------------------ *)

Lemma includes_false x l : ~ In x l -> Str.includes x l = false.
Proof.
  unfold Str.includes. induction l as [|y l IH]; cbn; [reflexivity|].
  intros Hnot. destruct (String.eqb x y) eqn:Hxy.
  - apply String.eqb_eq in Hxy. exfalso. apply Hnot. left. congruence.
  - apply IH. intros H. apply Hnot. right. exact H.
Qed.

(** X22. The hook keeps the import directories the host configured, in
    order and in front; what it adds are paths relative to the source
    directory, each standing for one collected path, and never more of
    them than there are collected paths. *)
Theorem addImportDirs_extends (cwd srcDir : string) (paths dirs : list string) :
  exists added,
    addImportDirs cwd srcDir paths dirs = dirs ++ added /\
    Forall (fun d => exists p, In p paths /\ d = Path.relative cwd srcDir p) added /\
    length added <= length paths.
Proof.
  revert dirs. induction paths as [|p paths IH]; intros dirs; cbn [addImportDirs].
  - exists []. rewrite app_nil_r. repeat split; [constructor|reflexivity].
  - destruct (Str.includes p dirs).
    + destruct (IH dirs) as (added & Heq & Hall & Hlen).
      exists added. split; [exact Heq|]. split; [|cbn; lia].
      eapply Forall_impl; [exact Hall|].
      intros d (q & Hq & ->). exists q. split; [right; exact Hq|reflexivity].
    + destruct (IH (dirs ++ [Path.relative cwd srcDir p])) as (added & Heq & Hall & Hlen).
      exists (Path.relative cwd srcDir p :: added).
      split; [rewrite Heq, <- app_assoc; reflexivity|].
      split; [|cbn; lia].
      constructor; [exists p; split; [left|]; reflexivity|].
      eapply Forall_impl; [exact Hall|].
      intros d (q & Hq & ->). exists q. split; [right; exact Hq|reflexivity].
Qed.

(** X23. The membership test of the hook looks for the collected path
    itself: when no collected path occurs in the host's list or among the
    relative paths being added, every collected path is added, repeated
    ones as often as they were collected. *)
Theorem addImportDirs_adds_all (cwd srcDir : string) (paths dirs : list string) :
  (forall p, In p paths -> ~ In p dirs) ->
  (forall p q, In p paths -> In q paths -> Path.relative cwd srcDir q <> p) ->
  addImportDirs cwd srcDir paths dirs = dirs ++ map (Path.relative cwd srcDir) paths.
Proof.
  revert dirs. induction paths as [|p paths IH]; intros dirs Hdirs Hrel;
    cbn [addImportDirs map].
  - rewrite app_nil_r. reflexivity.
  - rewrite includes_false by (apply Hdirs; left; reflexivity).
    rewrite IH.
    + rewrite <- app_assoc. reflexivity.
    + intros q Hq Hin. apply in_app_or in Hin as [Hin|[Hin|[]]].
      * exact (Hdirs q (or_intror Hq) Hin).
      * exact (Hrel q p (or_intror Hq) (or_introl eq_refl) Hin).
    + intros a b Ha Hb. apply Hrel; right; assumption.
Qed.

Lemma addImportDirs_adds_all_witness :
  addImportDirs "/p" "/p/src" ["/p/layers/a/utils"; "/p/layers/b/utils"; "/p/layers/a/utils"]
    ["components"] =
    ["components"; "../layers/a/utils"; "../layers/b/utils"; "../layers/a/utils"].
Proof.
  apply (addImportDirs_adds_all "/p" "/p/src"
           ["/p/layers/a/utils"; "/p/layers/b/utils"; "/p/layers/a/utils"]
           ["components"]).
  - intros p Hp [H|[]]. subst p.
    repeat (destruct Hp as [Hp|Hp]; [discriminate Hp|]). exact Hp.
  - intros p q Hp Hq.
    repeat (destruct Hp as [<-|Hp]);
      repeat (destruct Hq as [<-|Hq]); try discriminate; try contradiction.
Defined.

(* ------------------------------------------------------------------ *)
(** ** Layer paths *)
(* ------------------------------------------------------------------ *)

Lemma kept_are_directories fs (candidates : list string) (flags : list bool) :
  Forall2 (fun p b => Fs.isDirectory fs p = Some b) candidates flags ->
  Forall (fun p => Fs.isDirectory fs p = Some true)
    (map fst (List.filter snd (combine candidates flags))).
Proof.
  induction 1 as [|p b candidates flags Hp _ IH]; cbn; [constructor|].
  destruct b; cbn; [constructor; assumption|exact IH].
Qed.

(** X24. A source that ends in the wildcard yields directories only:
    every layer path returned for it is a directory, the files beside the
    layers being left out. *)
Theorem wildcard_layers_are_directories (fs : Fs.t) (sourceConfig : SourceOptions)
    (layerPaths : list string) :
  Str.endsWith "/*" (Path.resolve (Fs.cwd fs) [source sourceConfig]) = true ->
  getLayerPaths fs sourceConfig = Some layerPaths ->
  Forall (fun p => Fs.isDirectory fs p = Some true) layerPaths.
Proof.
  intros Hwild. unfold getLayerPaths. rewrite Hwild.
  destruct (Fs.existsSync fs _); [|intros [= <-]; constructor].
  destruct (Fs.readdirSync fs _) as [names|]; cbn [mbind option_bind]; [|discriminate].
  destruct (mapM _ names) as [flags|] eqn:Hflags; cbn [mbind option_bind]; [|discriminate].
  intros [= <-]. apply kept_are_directories.
  apply mapM_Some in Hflags.
  induction Hflags; cbn [map]; constructor; assumption.
Qed.

Lemma wildcard_layers_are_directories_witness :
  Forall (fun p => Fs.isDirectory oddFs p = Some true)
    ["/p/layers/flat"; "/p/layers/bare"; "/p/layers/misc"].
Proof.
  apply (wildcard_layers_are_directories oddFs
           {| source := "layers/*"; sourceAlias := None; sourceCommon := noCommon |});
    reflexivity.
Defined.

(* ------------------------------------------------------------------ *)
(** ** Alias table: the guard *)
(* ------------------------------------------------------------------ *)

(** X25. The guard of [setAlias] is a truthiness test on the stored
    path: a key bound to the empty string counts as free, and a
    registration under it binds it anew. *)
Theorem empty_binding_is_rebound (path : string) (alias : option string)
    (table : gmap string string) (key : string) :
  aliasKey (path, alias) = Some key ->
  table !! key = Some "" ->
  setAlias path alias table = <[key := path]> table.
Proof.
  unfold aliasKey, setAlias. cbn [fst snd].
  destruct alias as [a|]; [|discriminate].
  destruct (String.eqb a ""); [discriminate|].
  intros [= <-] Hkey. unfold aliasDefined. rewrite Hkey. reflexivity.
Qed.

Lemma empty_binding_is_rebound_witness :
  setAlias "/p/layers/demo" (Some "#{name}") (<["#demo" := ""]> ∅) =
    <["#demo" := "/p/layers/demo"]> (<["#demo" := ""]> ∅).
Proof.
  apply (empty_binding_is_rebound "/p/layers/demo" (Some "#{name}")
           (<["#demo" := ""]> ∅) "#demo"); reflexivity.
Defined.

(* ------------------------------------------------------------------ *)
(** ** [plural] *)
(* ------------------------------------------------------------------ *)

Lemma hasChar_chars c s : hasChar c s = false -> ~ In c (chars s).
Proof.
  induction s as [|a s IH]; cbn; [auto|].
  intros H. apply orb_false_iff in H as [Ha Hs].
  apply Ascii.eqb_neq in Ha. intros [Heq|Hin]; [contradiction|exact (IH Hs Hin)].
Qed.

(** X26. For a word without [|], [plural] names one item by the word
    and any other number of items, zero included, by the word followed
    by [s]; with the count included, the decimal count and a space come
    first. *)
Theorem plural_regular (word : string) (count : nat) :
  hasChar "|" word = false ->
  plural word count false = (if (count =? 1)%nat then word else word +:+ "s") /\
  plural word count true = pretty count +:+ " " +:+ plural word count false.
Proof.
  intros Hbar. unfold plural.
  rewrite split_without_separator by (apply hasChar_chars, Hbar).
  cbn [hd]. split; [|reflexivity].
  destruct (count =? 1)%nat; [reflexivity|].
  destruct word; reflexivity.
Qed.

Lemma plural_regular_witness :
  plural "layer" 3 true = "3 layers" /\ plural "layer" 1 true = "1 layer".
Proof.
  destruct (plural_regular "layer" 3 eq_refl) as [H3 H3'].
  destruct (plural_regular "layer" 1 eq_refl) as [H1 H1'].
  rewrite H3', H3, H1', H1. split; reflexivity.
Defined.
